(** * ironflow: typed ports and dtypes

    A shallow embedding of [ironflow/model/dtypes.py], [ironflow/model/port.py]
    and of [NodeController.input_field_list] in
    [ironflow/gui/workflows/boxes/node_interface/control.py].

    Python values, classes and exceptions are modelled explicitly:
    - a closed universe of Python classes [cls] with each class's MRO;
    - [classinfo]: an entry of a [valid_classes] list, which is either a class
      or some other object (the builtin function [chr] used by [Char]);
    - [res]: the result of a Python computation, a value or a raised
      exception. *)

From Stdlib Require Import String Ascii ZArith Bool List.
From stdpp Require Import base gmap strings list.

Open Scope string_scope.

(* ------------------------------------------------------------------ *)
(** ** Python classes *)

Inductive cls :=
  | CObject | CNoneType | CInt | CBool | CFloat | CStr | CList | CNdarray
  | CNpInteger | CNpInt64 | CNpFloating | CNpFloat64 | CNpBool | CNpStr
  (* the dtype classes of dtypes.py *)
  | CDType | CData | CBatchedData | CInteger | CFloatD | CBoolean | CChar
  | CString | CChoice | CListD.

Definition cls_eqb (a b : cls) : bool :=
  match a, b with
  | CObject, CObject | CNoneType, CNoneType | CInt, CInt | CBool, CBool
  | CFloat, CFloat | CStr, CStr | CList, CList | CNdarray, CNdarray
  | CNpInteger, CNpInteger | CNpInt64, CNpInt64 | CNpFloating, CNpFloating
  | CNpFloat64, CNpFloat64 | CNpBool, CNpBool | CNpStr, CNpStr
  | CDType, CDType | CData, CData | CBatchedData, CBatchedData
  | CInteger, CInteger | CFloatD, CFloatD | CBoolean, CBoolean
  | CChar, CChar | CString, CString | CChoice, CChoice | CListD, CListD => true
  | _, _ => false
  end.

(** [C.__mro__]: the class followed by all its ancestors.  [bool] derives
    from [int]; [numpy.float64] from [numpy.floating] and [float];
    [numpy.str_] from [str]; every dtype class of dtypes.py directly from
    [DType]. *)
Definition mro (c : cls) : list cls :=
  match c with
  | CObject => [CObject]
  | CNoneType => [CNoneType; CObject]
  | CInt => [CInt; CObject]
  | CBool => [CBool; CInt; CObject]
  | CFloat => [CFloat; CObject]
  | CStr => [CStr; CObject]
  | CList => [CList; CObject]
  | CNdarray => [CNdarray; CObject]
  | CNpInteger => [CNpInteger; CObject]
  | CNpInt64 => [CNpInt64; CNpInteger; CObject]
  | CNpFloating => [CNpFloating; CObject]
  | CNpFloat64 => [CNpFloat64; CNpFloating; CFloat; CObject]
  | CNpBool => [CNpBool; CObject]
  | CNpStr => [CNpStr; CStr; CObject]
  | CDType => [CDType; CObject]
  | CData => [CData; CDType; CObject]
  | CBatchedData => [CBatchedData; CDType; CObject]
  | CInteger => [CInteger; CDType; CObject]
  | CFloatD => [CFloatD; CDType; CObject]
  | CBoolean => [CBoolean; CDType; CObject]
  | CChar => [CChar; CDType; CObject]
  | CString => [CString; CDType; CObject]
  | CChoice => [CChoice; CDType; CObject]
  | CListD => [CListD; CDType; CObject]
  end.

(** [C.__name__] *)
Definition cls_name (c : cls) : string :=
  match c with
  | CObject => "object" | CNoneType => "NoneType" | CInt => "int"
  | CBool => "bool" | CFloat => "float" | CStr => "str" | CList => "list"
  | CNdarray => "ndarray" | CNpInteger => "integer" | CNpInt64 => "int64"
  | CNpFloating => "floating" | CNpFloat64 => "float64" | CNpBool => "bool_"
  | CNpStr => "str_" | CDType => "DType" | CData => "Data"
  | CBatchedData => "BatchedData" | CInteger => "Integer" | CFloatD => "Float"
  | CBoolean => "Boolean" | CChar => "Char" | CString => "String"
  | CChoice => "Choice" | CListD => "List"
  end.

(** Subclass test between two classes (what [type.__subclasscheck__] does). *)
Definition cls_sub (c d : cls) : bool := existsb (cls_eqb d) (mro c).

(** An entry of a [valid_classes] list: a class, or another object such as
    the builtin function [chr] that [Char] puts there. *)
Inductive classinfo :=
  | KClass (c : cls)
  | KOther (what : string).

(* ------------------------------------------------------------------ *)
(** ** Python values and exceptions *)

(** Python values other than dtype objects.  [VObj c n] is an opaque object
    of class [c] with identity [n] (floats, numpy scalars, Atoms, ...). *)
#[local] Set Warnings "-register-all".
Inductive pyval :=
  | VNone
  | VBool (b : bool)
  | VInt (z : Z)
  | VStr (s : string)
  | VList (l : list pyval)
  | VArr (l : list pyval)
  | VObj (c : cls) (n : nat).

(** [type(v)] *)
Definition type_of (v : pyval) : cls :=
  match v with
  | VNone => CNoneType | VBool _ => CBool | VInt _ => CInt | VStr _ => CStr
  | VList _ => CList | VArr _ => CNdarray | VObj c _ => c
  end.

Inductive pyexc := TypeError | ValueError | IndexError | KeyError | AttributeError.

Inductive res (A : Type) :=
  | Ok (a : A)
  | Raise (e : pyexc).
Arguments Ok {A} a.
Arguments Raise {A} e.

(** Results form a monad; stdpp's [x ← m; k] threads a raised exception
    out of the rest of the computation. *)
#[global] Instance res_ret : MRet res := fun _ a => Ok a.
#[global] Instance res_bind : MBind res :=
  fun _ _ k m => match m with Ok a => k a | Raise e => Raise e end.

(** [[f(x) for x in xs]]: evaluated left to right, the first exception
    escapes. *)
Fixpoint res_map {A B} (f : A -> res B) (xs : list A) : res (list B) :=
  match xs with
  | [] => Ok []
  | x :: xs' => y ← f x; ys ← res_map f xs'; Ok (y :: ys)
  end.

(** [isinstance(v, c)]: raises [TypeError] when [c] is not a class. *)
Definition py_isinstance_cls (c : cls) (ci : classinfo) : res bool :=
  match ci with
  | KClass d => Ok (cls_sub c d)
  | KOther _ => Raise TypeError
  end.

Definition py_isinstance (v : pyval) (ci : classinfo) : res bool :=
  py_isinstance_cls (type_of v) ci.

(** [issubclass(o, ref)]: raises [TypeError] when either is not a class. *)
Definition py_issubclass (o ref : classinfo) : res bool :=
  match o, ref with
  | KClass c, KClass d => Ok (cls_sub c d)
  | _, _ => Raise TypeError
  end.

(** [PyObject_RichCompareBool(item, val, Py_EQ)]: [True] when the two are
    the same object, otherwise [bool(item == val)].  What [==] does depends
    on the objects' classes ([1.0 == 1], numpy arrays compare element-wise
    and [bool()] of a result with several elements raises [ValueError], ...);
    the model leaves it a parameter, so what is proved with it holds for
    every such [==]. *)
Class PyEq := py_eq : pyval -> pyval -> res bool.

(** [val in items] on a Python list: the items are compared in order, the
    first [True] stops the search, an exception escapes. *)
Fixpoint py_in `{PyEq} (v : pyval) (items : list pyval) : res bool :=
  match items with
  | [] => Ok false
  | e :: items' => b ← py_eq e v; if (b : bool) then Ok true else py_in v items'
  end.

(** One [==] for concrete runs: exact on [None], bools, ints, strings and
    lists of them ([True == 1]); an array or an opaque object ([VObj]) is
    only equal to itself.  Only the first kind of values are compared in the
    concrete runs below. *)
Fixpoint basic_eq_fn (a b : pyval) : bool :=
  match a, b with
  | VNone, VNone => true
  | VBool x, VBool y => Bool.eqb x y
  | VBool x, VInt z | VInt z, VBool x => Z.eqb z (Z.b2z x)
  | VInt x, VInt y => Z.eqb x y
  | VStr x, VStr y => String.eqb x y
  | VList xs, VList ys | VArr xs, VArr ys =>
      (fix go (xs ys : list pyval) : bool :=
         match xs, ys with
         | [], [] => true
         | x :: xs', y :: ys' => basic_eq_fn x y && go xs' ys'
         | _, _ => false
         end) xs ys
  | VObj c n, VObj d m => cls_eqb c d && Nat.eqb n m
  | _, _ => false
  end.

Definition basic_eq : PyEq := fun a b => Ok (basic_eq_fn a b).

(** Every entry of a [valid_classes] list is a class. *)
Definition all_classes (vc : list classinfo) : bool :=
  forallb (fun k => match k with KClass _ => true | KOther _ => false end) vc.

(* ------------------------------------------------------------------ *)
(** ** dtypes.py *)

(** A dtype object.  [dkind] is [self.__class__]; [dval] is the [val]
    attribute the ryvencore base class keeps next to [default]; [items] is
    only used by [Choice].  [batched] is the attribute that port.py and
    control.py read and write ([self.dtype.batched]); [None] while the
    object has no such attribute, and reading it then raises
    [AttributeError]. *)
Record dtype := mkDType {
  dkind : cls;
  default : pyval;
  dval : pyval;
  valid_classes : list classinfo;
  allow_none : bool;
  batched : option bool;
  items : list pyval;
}.

(** The argument of [DType.matches]: a DType instance or any other value. *)
Inductive arg :=
  | ADType (d : dtype)
  | AVal (v : pyval).

(** [DType._other_types_are_subset]: both comprehensions build full lists
    before [all]/[any] look at them, so every pair is tested. *)
Definition other_types_are_subset (other reference : list classinfo) : res bool :=
  bs ← res_map (fun o =>
          rs ← res_map (fun ref => py_issubclass o ref) reference;
          Ok (existsb id rs)) other;
  Ok (forallb id bs).

(** [DType._dtype_matches] *)
Definition dtype_matches (self val : dtype) : res bool :=
  if cls_sub (dkind val) (dkind self) then
    other_is_more_specific ← other_types_are_subset (valid_classes val) (valid_classes self);
    let might_get_surprising_none := allow_none val && negb (allow_none self) in
    Ok (other_is_more_specific && negb might_get_surprising_none)
  else Ok false.

(** [set([...])] of classes: duplicates dropped. *)
Fixpoint py_set (l : list cls) : list cls :=
  match l with
  | [] => []
  | c :: l' => if existsb (cls_eqb c) l' then py_set l' else c :: py_set l'
  end.

(** [DType._instance_matches] *)
Definition base_instance_matches (self : dtype) (val : pyval) : res bool :=
  bs ← res_map (py_isinstance val) (valid_classes self);
  Ok (existsb id bs).

(** [BatchedData._instance_matches] *)
Definition batched_instance_matches (self : dtype) (val : pyval) : res bool :=
  match val with
  | VList l | VArr l =>
      other_types_are_subset (map KClass (py_set (map type_of l))) (valid_classes self)
  | _ => Ok false
  end.

(** [Choice._instance_matches] *)
Definition choice_instance_matches `{PyEq} (self : dtype) (val : pyval) : res bool :=
  py_in val (items self).

(** [self._instance_matches(val)], dispatched on the class of [self]:
    [BatchedData] and [Choice] override it, the other classes inherit it. *)
Definition instance_matches `{PyEq} (self : dtype) (val : pyval) : res bool :=
  match dkind self with
  | CBatchedData => batched_instance_matches self val
  | CChoice => choice_instance_matches self val
  | _ => base_instance_matches self val
  end.

(** [DType.matches] *)
Definition matches `{PyEq} (self : dtype) (val : arg) : res bool :=
  match val with
  | ADType d => dtype_matches self d
  | AVal VNone => Ok (allow_none self)
  | AVal v => instance_matches self v
  end.

(** [DType.from_str] *)
Definition from_str (s : string) : option cls :=
  find (fun C => String.eqb s ("DType." ++ cls_name C))
    [CBoolean; CChar; CChoice; CData; CFloatD; CInteger; CListD; CString].

(** The [valid_classes] argument of the constructors when it is not [None]:
    a Python list, or a single other object. *)
Inductive vc_arg :=
  | VCList (l : list classinfo)
  | VCOne (k : classinfo).

(** [DType.__init__] (with the ryvencore base constructor).  [_load_state]
    is modelled by the two attributes it restores here; when it is given,
    [valid_classes] and [allow_none] are not touched by this constructor.
    [its] are the [items] a [Choice] sets before calling it.  Neither this
    constructor nor the ryvencore base one sets a [batched] attribute, which
    port.py and control.py read. *)
Definition dtype_init (kind : cls) (default_ : pyval)
    (_load_state : option (list classinfo * bool))
    (vc : option vc_arg) (an : bool) (its : list pyval) : dtype :=
  let '(vcs, an') :=
    match _load_state with
    | Some st => st
    | None =>
        (match vc with
         | Some (VCList l) => l          (* list(valid_classes) *)
         | Some (VCOne k) => [k]         (* [valid_classes] *)
         | None => []
         end, an)
    end in
  mkDType kind default_ default_ vcs an' None its.

(** [BatchedData.__init__] *)
Definition batched_data_init (default_ : pyval) (batched_dtype : option dtype)
    (_load_state : option (list classinfo * bool))
    (vc : option vc_arg) (an : bool) : res dtype :=
  match batched_dtype with
  | Some bd =>
      match vc with
      | Some _ => Raise ValueError
      | None => Ok (dtype_init CBatchedData default_ _load_state
                      (Some (VCList (valid_classes bd))) an [])
      end
  | None => Ok (dtype_init CBatchedData default_ _load_state vc an [])
  end.

(** [x if x is not None else d] for the [valid_classes] argument *)
Definition vc_or (vc : option vc_arg) (d : vc_arg) : vc_arg :=
  match vc with Some a => a | None => d end.

(** [Integer.__init__] *)
Definition integer_init (default_ : pyval) ls vc an : dtype :=
  dtype_init CInteger default_ ls
    (Some (vc_or vc (VCList [KClass CInt; KClass CNpInteger]))) an [].

(** [Boolean.__init__] *)
Definition boolean_init (default_ : pyval) ls vc an : dtype :=
  dtype_init CBoolean default_ ls
    (Some (vc_or vc (VCList [KClass CBool; KClass CNpBool]))) an [].

(** [Char.__init__]: the default entry is the builtin function [chr]. *)
Definition char_init (default_ : pyval) ls vc an : dtype :=
  dtype_init CChar default_ ls (Some (vc_or vc (VCOne (KOther "chr")))) an [].

(** [String.__init__] *)
Definition string_init (default_ : pyval) ls vc an : dtype :=
  dtype_init CString default_ ls
    (Some (vc_or vc (VCList [KClass CStr; KClass CNpStr]))) an [].

(** [Float.__init__] *)
Definition float_init (default_ : pyval) ls vc an : dtype :=
  dtype_init CFloatD default_ ls
    (Some (vc_or vc (VCList [KClass CFloat; KClass CNpFloating]))) an [].

(** [List.__init__]: a [None] default becomes [[]]; the default entry is the
    class [list] itself. *)
Definition list_init (default_ : option pyval) ls vc an : dtype :=
  dtype_init CListD (match default_ with Some v => v | None => VList [] end) ls
    (Some (vc_or vc (VCOne (KClass CList)))) an [].

(** [Data.__init__] *)
Definition data_init (default_ : pyval) ls vc an : dtype :=
  dtype_init CData default_ ls vc an [].

(** [Choice.__init__] *)
Definition choice_init (default_ : pyval) (its : option (list pyval)) ls vc an : dtype :=
  dtype_init CChoice default_ ls vc an (match its with Some l => l | None => [] end).

(* ------------------------------------------------------------------ *)
(** ** port.py *)

(** An ontology type: only [otype.namespace.name] and [otype.name] are read
    by the code modelled here. *)
Record otype := mkOType {
  ot_namespace_name : string;
  ot_name : string;
}.

(** A [NodeInput]: [inp_connections] is [len(self.connections)] and
    [inp_index] is [self.node.inputs.index(self)]. *)
Record node_input := mkNodeInput {
  inp_dtype : option dtype;
  inp_val : pyval;
  inp_connections : nat;
  inp_index : nat;
  inp_label_str : string;
  inp_type : string;
  inp_otype : option otype;
}.

(** A [NodeOutput] *)
Record node_output := mkNodeOutput {
  out_dtype : option dtype;
  out_val : pyval;
  out_otype : option otype;
}.

Definition set_inp_val (p : node_input) (v : pyval) : node_input :=
  mkNodeInput (inp_dtype p) v (inp_connections p) (inp_index p)
    (inp_label_str p) (inp_type p) (inp_otype p).

Definition set_inp_dtype (p : node_input) (d : option dtype) : node_input :=
  mkNodeInput d (inp_val p) (inp_connections p) (inp_index p)
    (inp_label_str p) (inp_type p) (inp_otype p).

(** [dtype.batched = b] *)
Definition set_batched (d : dtype) (b : bool) : dtype :=
  mkDType (dkind d) (default d) (dval d) (valid_classes d) (allow_none d) (Some b) (items d).

(** The attributes the [HasDType] mixin reads from its host class. *)
Class HasDType (P : Type) := {
  port_dtype : P -> option dtype;
  port_val : P -> pyval;
}.

#[global] Instance node_input_has_dtype : HasDType node_input :=
  {| port_dtype := inp_dtype; port_val := inp_val |}.
#[global] Instance node_output_has_dtype : HasDType node_output :=
  {| port_dtype := out_dtype; port_val := out_val |}.

Section HasTypes.
Context {P : Type} `{HasDType P}.
(** [DType.valid_val] of the ryvencore base class *)
Variable valid_val : dtype -> pyval -> bool.
(** [HasOType.otype_ok] (ontology checks of pyiron_ontology) *)
Variable otype_ok : P -> bool.

(** [HasDType.dtype_ok] *)
Definition dtype_ok (p : P) : bool :=
  match port_dtype p with
  | Some d =>
      match port_val p with
      | VNone => allow_none d
      | v => valid_val d v
      end
  | None => true
  end.

(** [HasTypes.ready] *)
Definition ready (p : P) : bool := dtype_ok p && otype_ok p.
End HasTypes.

(** The state [NodeInput.batch] and [NodeInput.unbatch] act on: the port and
    the calls [self.node.update(i)] made so far, oldest first. *)
Record istate := mkIState {
  st_port : node_input;
  st_updates : list nat;
}.

(** [NodeInput._update_node] *)
Definition update_node (s : istate) : istate :=
  mkIState (st_port s) (st_updates s ++ [inp_index (st_port s)]).

(** [val[-1]] *)
Definition py_last (v : pyval) : res pyval :=
  match v with
  | VList l | VArr l =>
      match last l with Some x => Ok x | None => Raise IndexError end
  | VStr s =>
      match String.length s with
      | 0 => Raise IndexError
      | S k => Ok (VStr (String.substring k 1 s))
      end
  | _ => Raise TypeError
  end.

(** [NodeInput.batch]: [not self.dtype.batched] raises [AttributeError]
    when the dtype has no [batched] attribute. *)
Definition batch (s : istate) : istate * res unit :=
  let p := st_port s in
  match inp_dtype p with
  | Some d =>
      match batched d with
      | None => (s, Raise AttributeError)
      | Some false =>
          let p1 := set_inp_dtype p (Some (set_batched d true)) in
          let p2 := if Nat.eqb (inp_connections p1) 0
                    then set_inp_val p1 (VList [inp_val p1]) else p1 in
          (update_node (mkIState p2 (st_updates s)), Ok tt)
      | Some true => (s, Ok tt)
      end
  | None => (s, Ok tt)
  end.

(** [NodeInput.unbatch]: reading [self.dtype.batched] raises
    [AttributeError] when there is no such attribute; the flag is cleared
    before [self.val[-1]] is evaluated, so it stays cleared when that
    raises. *)
Definition unbatch (s : istate) : istate * res unit :=
  let p := st_port s in
  match inp_dtype p with
  | Some d =>
      match batched d with
      | None => (s, Raise AttributeError)
      | Some true =>
          let p1 := set_inp_dtype p (Some (set_batched d false)) in
          if Nat.eqb (inp_connections p1) 0 then
            match py_last (inp_val p1) with
            | Ok x => (update_node (mkIState (set_inp_val p1 x) (st_updates s)), Ok tt)
            | Raise e => (mkIState p1 (st_updates s), Raise e)
            end
          else (update_node (mkIState p1 (st_updates s)), Ok tt)
      | Some false => (s, Ok tt)
      end
  | None => (s, Ok tt)
  end.

(** [str(dtype)] of the ryvencore base class: ["DType." + class name]. *)
Definition dtype_str (d : dtype) : string := "DType." ++ cls_name (dkind d).

(** A serialized port: a Python dict with string keys. *)
Abbreviation pydict := (gmap string pyval).

Section PortData.
(** [NodeInputCore.data()] and [NodeOutputCore.data()] of ryvencore *)
Variable core_input_data : node_input -> pydict.
Variable core_output_data : node_output -> pydict.
(** [serialize(self.dtype.get_state())] *)
Variable serialize_state : dtype -> string.

Definition add_otype_data (ot : option otype) (data : pydict) : pydict :=
  match ot with
  | Some o =>
      <["otype_name" := VStr (ot_name o)]>
        (<["otype_namespace" := VStr (ot_namespace_name o)]> data)
  | None => data
  end.

(** [NodeInput.data] *)
Definition input_data (p : node_input) : pydict :=
  add_otype_data (inp_otype p) (core_input_data p).

(** [NodeOutput.data] *)
Definition output_data (p : node_output) : pydict :=
  let data := core_output_data p in
  let data := match out_dtype p with
              | Some d => <["dtype state" := VStr (serialize_state d)]>
                            (<["dtype" := VStr (dtype_str d)]> data)
              | None => data
              end in
  add_otype_data (out_otype p) data.
End PortData.

(* ------------------------------------------------------------------ *)
(** ** NodeController.input_field_list (control.py) *)

(** [s.split(".")[-1]] *)
Fixpoint last_segment_from (s acc : string) : string :=
  match s with
  | EmptyString => acc
  | String c s' =>
      if Ascii.eqb c "."%char then last_segment_from s' ""
      else last_segment_from s' (acc ++ String c "")
  end.

Definition last_segment (s : string) : string := last_segment_from s "".

(** [str(inp.dtype)] *)
Definition dtype_str_opt (d : option dtype) : string :=
  match d with Some d => dtype_str d | None => "None" end.

(** The text of a [Text] widget: a literal, or [str(v)] of a value. *)
Inductive text :=
  | TLit (s : string)
  | TStrOf (v : pyval).

(** The ipywidgets widgets the controller builds, with the arguments it
    passes ([value], [options], [disabled], [description]). *)
Inductive widget :=
  | WText (value : text) (disabled : bool)
  | WIntText (value : pyval) (disabled : bool)
  | WFloatText (value : pyval) (disabled : bool)
  | WCheckbox (value : pyval) (disabled : bool)
  | WDropdown (value : pyval) (options : list pyval) (disabled : bool)
  | WLabel (value : string)
  | WToggleButton (description : string) (disabled : bool) (value : bool)
  | WButton (disabled : bool).

(** [dtype_state]: the deserialized [inp.data()["dtype state"]], or the
    replacement dict built when serialization fails.  The dict's keys, and
    the values under the two keys the controller reads: ["val"], and
    ["batched"] (meaningful only when that key is present). *)
Record dstate := mkDState {
  ds_keys : list string;
  ds_val : pyval;
  ds_batched : bool;
}.

(** [{"val": "Serialization error -- please reconnect an input"}] *)
Definition serialization_error_state : dstate :=
  mkDState ["val"] (VStr "Serialization error -- please reconnect an input") false.

Definition has_key (st : dstate) (k : string) : bool :=
  existsb (String.eqb k) (ds_keys st).

(** [dtype_state["val"]] *)
Definition dstate_val (st : dstate) : res pyval :=
  if has_key st "val" then Ok (ds_val st) else Raise KeyError.

(** [dtype_state["batched"]] *)
Definition dstate_batched (st : dstate) : res bool :=
  if has_key st "batched" then Ok (ds_batched st) else Raise KeyError.

(** The names the constructors of dtypes.py register with [add_data], by
    the dtype's class: [DType.__init__] adds ["valid_classes"] and
    ["allow_none"]; [Data] and [String] add ["size"], [Float] ["decimals"],
    [Choice] ["items"]. *)
Definition own_data_names (k : cls) : list string :=
  ["valid_classes"; "allow_none"]
  ++ match k with
     | CData | CString => ["size"]
     | CFloatD => ["decimals"]
     | CChoice => ["items"]
     | _ => []
     end.

(** The node the controller draws: [node.inputs] ([None] when the node has
    no such attribute), [node.block_updates] and whether it is a
    [BatchingNode]. *)
Record node := mkNode {
  node_inputs : option (list node_input);
  block_updates : bool;
  is_batching_node : bool;
}.

Definition trait_error_text : string :=
  "Trait error -- check log and/or change input.".

Section Control.
(** Whether [inp.data()] serializes the port ([serialize], a pickle dump,
    raises [TypeError] otherwise, for instance on an [Atoms] value). *)
Variable serializable : node_input -> bool.
(** Whether the widget constructor accepts its arguments (it raises a
    traitlets [TraitError] otherwise). *)
Variable trait_valid : widget -> bool.
(** The names the ryvencore base constructor registers in [self._data]. *)
Variable core_data : list string.

(** [dtype.get_state()]: [{name: getattr(self, name) for name in
    self._data}]; [getattr] raises [AttributeError] for a registered
    ["batched"] the dtype does not have. *)
Definition get_state (d : dtype) : res dstate :=
  let keys := (core_data ++ own_data_names (dkind d))%list in
  if existsb (String.eqb "batched") keys then
    match batched d with
    | Some b => Ok (mkDState keys (dval d) b)
    | None => Raise AttributeError
    end
  else Ok (mkDState keys (dval d) false).

(** The [if]/[elif] chain that picks the input widget. *)
Definition choose_widget (dname : string) (st_batched : bool) (d : dtype)
    (val : pyval) (disabled : bool) : widget :=
  if st_batched then WText (TLit ("Batched " ++ dname)) true
  else if String.eqb dname "Integer" then WIntText val disabled
  else if String.eqb dname "Float" then WFloatText val disabled
  else if String.eqb dname "Boolean" then WCheckbox val disabled
  else if String.eqb dname "Choice" then WDropdown val (items d) disabled
  else if String.eqb dname "String" || String.eqb dname "Char"
  then WText (TStrOf val) disabled
  else WText (TStrOf val) true.

(** One iteration of the loop in [input_field_list]: the port after
    [inp.val = dtype_state["val"]], and the row or the escaping exception.
    Only [TypeError] is caught around [inp.data()] and only [TraitError]
    around the widget constructors.  Without a dtype, [inp.data()] has no
    ["dtype state"] entry ([KeyError]), or raises [TypeError] and the
    replacement dict has no ["batched"] entry ([KeyError]). *)
Definition input_field (n : node) (inp : node_input) : node_input * res (list widget) :=
  let dname := last_segment (dtype_str_opt (inp_dtype inp)) in
  let disabled := block_updates n || negb (Nat.eqb (inp_connections inp) 0) in
  match inp_dtype inp with
  | None =>
      if serializable inp then (inp, Raise KeyError)
      else match inp_val inp with
           | VNone => (set_inp_val inp (ds_val serialization_error_state), Raise KeyError)
           | _ => (inp, Raise KeyError)
           end
  | Some d =>
      let st := if serializable inp then get_state d else Ok serialization_error_state in
      match st with
      | Raise e => (inp, Raise e)
      | Ok st =>
          let '(inp, r) :=
            match inp_val inp with
            | VNone =>
                match dstate_val st with
                | Ok v => (set_inp_val inp v, Ok tt)
                | Raise e => (inp, Raise e)
                end
            | _ => (inp, Ok tt)
            end in
          match r with
          | Raise e => (inp, Raise e)
          | Ok _ =>
              match dstate_batched st with
              | Raise e => (inp, Raise e)
              | Ok b =>
                  let w := choose_widget dname b d (inp_val inp) disabled in
                  let inp_widget := if trait_valid w then w else WLabel trait_error_text in
                  let description := if String.eqb (inp_label_str inp) ""
                                     then inp_type inp else inp_label_str inp in
                  (* value=inp.dtype.batched *)
                  match batched d with
                  | None => (inp, Raise AttributeError)
                  | Some bb =>
                      let batch_button :=
                        WToggleButton "Batched" (negb (is_batching_node n)) bb in
                      let reset_button := WButton (negb (Nat.eqb (inp_connections inp) 0)) in
                      (inp, Ok [WLabel description; inp_widget; batch_button; reset_button])
                  end
              end
          end
      end
  end.

Fixpoint input_fields (n : node) (inps : list node_input)
    : list node_input * res (list (list widget)) :=
  match inps with
  | [] => ([], Ok [])
  | inp :: rest =>
      let '(inp', r) := input_field n inp in
      match r with
      | Raise e => (inp' :: rest, Raise e)
      | Ok row =>
          let '(rest', rs) := input_fields n rest in
          (inp' :: rest', rows ← rs; Ok (row :: rows))
      end
  end.

(** [NodeController.input_field_list]: the node's inputs afterwards and
    the rows (or the exception). *)
Definition input_field_list (n : node) : option (list node_input) * res (list (list widget)) :=
  match node_inputs n with
  | Some inps => let '(inps', r) := input_fields n inps in (Some inps', r)
  | None => (None, Ok [])
  end.
End Control.

(* ------------------------------------------------------------------ *)
(** ** DType.__init__ on a heap of list objects

    The value-level [dtype_init] above cannot say whether the new dtype's
    [valid_classes] is the same list object as the caller's.  Here lists are
    objects on a heap, referred to by address, and the constructor is run
    against that heap. *)
Module Alloc.
Abbreviation heap := (gmap positive (list classinfo)).

(** The [valid_classes] argument: [None], a reference to a list object,
    or another object. *)
Inductive harg :=
  | HNone
  | HList (l : positive)
  | HOther (k : classinfo).

(** The attributes of a dtype object this constructor sets: the address
    of its [valid_classes] list, [allow_none], and [self._data], the
    names registered with [add_data]. *)
Record hdtype := mkHDType {
  h_valid_classes : positive;
  h_allow_none : bool;
  h_data : list string;
}.

Section Init.
(** The names the ryvencore base constructor registers in [_data]. *)
Variable core_data : list string.

(** [self.add_data(name)]: [self._data.append(name)] *)
Definition add_data (fields : list string) (name : string) : list string :=
  fields ++ [name].

(** [DType.__init__]: [list(valid_classes)] and [[valid_classes]] and
    [[]] each build a new list object.  [None] only for a dangling
    reference, which a Python program cannot hold. *)
Definition dtype_init (h : heap) (_load_state : option (list classinfo * bool))
    (vc : harg) (an : bool) : option (heap * hdtype) :=
  contents ← match _load_state with
             | Some (xs, _) => Some xs
             | None =>
                 match vc with
                 | HList a => h !! a
                 | HOther k => Some [k]
                 | HNone => Some []
                 end
             end;
  let an' := match _load_state with Some (_, b) => b | None => an end in
  let l := fresh (dom h) in
  let fields := add_data (add_data core_data "valid_classes") "allow_none" in
  Some (<[l := contents]> h, mkHDType l an' fields).
End Init.
End Alloc.

(* ------------------------------------------------------------------ *)
(** ** The controller's callbacks (control.py) *)

(** The part of the controller's state its callbacks change: the node's
    input ports ([self.node.inputs]) and the calls [self.node.update(i)]
    made so far, oldest first.  The canvas redraws
    ([self.screen.redraw_active_flow_canvas()], [self.draw()]) and the
    log messages are not modelled. *)
Record nstate := mkNState {
  ns_inputs : list node_input;
  ns_updates : list nat;
}.

(** [NodeController.input_change_i(i_c)({"new": v})] *)
Definition input_change (i_c : nat) (v : pyval) (s : nstate) : nstate * res unit :=
  match ns_inputs s !! i_c with
  | None => (s, Raise IndexError)
  | Some p =>
      (mkNState (<[i_c := set_inp_val p v]> (ns_inputs s)) (ns_updates s ++ [i_c]), Ok tt)
  end.

Section Toggle.
Variable serializable : node_input -> bool.
Variable trait_valid : widget -> bool.
Variable core_data : list string.
(** The node's [block_updates] and whether it is a [BatchingNode]. *)
Variables (node_block_updates node_is_batching : bool).

(** [NodeController.draw()] on the node with inputs [ins]: [clear()] and
    [draw_info_box()] do not raise, [draw_input_widget()] catches
    [AttributeError]; [draw_input_box()] raises exactly when
    [input_field_list()] does, which also fills [inp.val]. *)
Definition draw (ins : list node_input) : list node_input * res unit :=
  let '(ins', r) := input_fields serializable trait_valid core_data
                      (mkNode (Some ins) node_block_updates node_is_batching) ins in
  (ins', _ ← r; Ok tt).

(** [NodeController.toggle_batching_i(i_c)({"new": new})]: the log message
    reads [self.node.inputs[i_c]] first; [batch()] or [unbatch()], then
    [self.draw()]; only [AttributeError] is caught. *)
Definition toggle_batching (i_c : nat) (new : bool) (s : nstate) : nstate * res unit :=
  match ns_inputs s !! i_c with
  | None => (s, Raise IndexError)
  | Some p =>
      let '(st, r) := (if new then batch else unbatch) (mkIState p (ns_updates s)) in
      let s' := mkNState (<[i_c := st_port st]> (ns_inputs s)) (st_updates st) in
      let '(s'', r') :=
        match r with
        | Ok _ =>
            let '(ins, r2) := draw (ns_inputs s') in (mkNState ins (ns_updates s'), r2)
        | Raise e => (s', Raise e)
        end in
      match r' with
      | Raise AttributeError => (s'', Ok tt)
      | _ => (s'', r')
      end
  end.
End Toggle.


(** [self._row_height] *)
Definition row_height : nat := 30.

(** [NodeController._box_height] *)
Definition box_height (n_rows : nat) : nat := n_rows * row_height + 8.

(** The box [draw_input_box] returns: a [GridBox] with its children and its
    height in pixels, or an empty [Output]. *)
Inductive input_box :=
  | GridBox (children : list widget) (height_px : nat)
  | OutputWidget.

(** [NodeController.draw_input_box]: [np.array(input_fields).flatten()] of
    rows of four widgets lists them row after row. *)
Definition draw_input_box (serializable : node_input -> bool)
    (trait_valid : widget -> bool) (core_data : list string) (n : node) : res input_box :=
  fields ← snd (input_field_list serializable trait_valid core_data n);
  let n_fields := length fields in
  if Nat.ltb 0 n_fields then Ok (GridBox (concat fields) (box_height n_fields))
  else Ok OutputWidget.

(** A widget tree for [NodeController._close_widget]: the widget's identity
    and its [children] ([None] when it has no such attribute). *)
Inductive wtree :=
  | WTree (id : nat) (children : option (list wtree)).

(** [NodeController._close_widget]: the identities passed to [w.close()],
    in call order, appended to [closed]. *)
Fixpoint close_widget (w : wtree) (closed : list nat) : list nat :=
  match w with
  | WTree i cs =>
      let closed' :=
        match cs with
        | Some cs =>
            (fix go (cs : list wtree) (acc : list nat) : list nat :=
               match cs with
               | [] => acc
               | c :: cs' => go cs' (close_widget c acc)
               end) cs closed
        | None => closed
        end in
      (closed' ++ [i])%list
  end.

(** The identities of all widgets of a tree. *)
Fixpoint wtree_ids (w : wtree) : list nat :=
  match w with
  | WTree i cs =>
      i :: match cs with
           | Some cs => (fix go (cs : list wtree) : list nat :=
                           match cs with [] => [] | c :: cs' => (wtree_ids c ++ go cs')%list end) cs
           | None => []
           end
  end.

(* ------------------------------------------------------------------ *)
(** ** Ontological workflow trees (port.py) *)

(** A node of a source tree of pyiron_ontology: its [value] (an ontology
    type) and its [children]. *)
Inductive otree :=
  | OTree (value : otype) (children : list otree).

Definition otree_value (t : otree) : otype := match t with OTree v _ => v end.

(** Ontology types compare by namespace and name. *)
Definition otype_eqb (a b : otype) : bool :=
  String.eqb (ot_namespace_name a) (ot_namespace_name b) && String.eqb (ot_name a) (ot_name b).

(** [port.otype == source.value]: [None] equals no ontology type. *)
Definition opt_otype_eqb (a : option otype) (b : otype) : bool :=
  match a with Some a => otype_eqb a b | None => false end.

(** The port graph the check walks, by port number: an output's [otype] and
    the inputs of its node ([output_port.node.inputs]); an input's [otype]
    and the outputs of its connections ([con.out for con in inp.connections]). *)
Record graph := mkGraph {
  g_out_otype : nat -> option otype;
  g_out_node_inputs : nat -> list nat;
  g_inp_otype : nat -> option otype;
  g_inp_connections : nat -> list nat;
}.

(** [inp.otype is not None and len(inp.connections) > 0] *)
Definition upstream_input (g : graph) (i : nat) : bool :=
  match g_inp_otype g i, g_inp_connections g i with
  | Some _, _ :: _ => true
  | _, _ => false
  end.

(** [HasOType._output_graph_is_represented_in_workflow_tree(output_port,
    input_tree)].  Every [IndexError] (no matching child, no [children[0]])
    is caught and gives [False]; an early [return False] and the final
    [return True] make the result the conjunction over the upstream inputs. *)
Fixpoint represented (g : graph) (input_tree : otree) (out : nat) {struct input_tree} : bool :=
  match input_tree with
  | OTree _ children =>
      (fix find_out (cs : list otree) : bool :=
         match cs with
         | [] => false                                   (* argwhere(...)[0] *)
         | OTree v cc :: cs' =>
             if opt_otype_eqb (g_out_otype g out) v then
               (fix loop_usi (us : list nat) : bool :=
                  match us with
                  | [] => true
                  | usi :: us' =>
                      match cc with
                      | [] => false                       (* .children[0] *)
                      | OTree _ input_branches :: _ =>
                          (fix find_in (bs : list otree) : bool :=
                             match bs with
                             | [] => false                 (* argwhere(...)[0] *)
                             | b :: bs' =>
                                 if opt_otype_eqb (g_inp_otype g usi) (otree_value b) then
                                   forallb (fun o =>
                                              match g_out_otype g o with
                                              | Some _ => represented g b o
                                              | None => true
                                              end) (g_inp_connections g usi)
                                   && loop_usi us'
                                 else find_in bs'
                             end) input_branches
                      end
                  end) (filter (upstream_input g) (g_out_node_inputs g out))
             else find_out cs'
         end) children
  end.

(** [NodeOutput.all_connections_found_in(tree)] *)
Definition all_connections_found_in (g : graph) (out : nat) (tree : otree) : bool :=
  represented g tree out.

Definition otree_children (t : otree) : list otree := match t with OTree _ cs => cs end.

Section OTypeOk.
(** [self.otype.get_source_tree(additional_requirements=
    self.get_downstream_requirements())] for the input port [i]
    (pyiron_ontology builds it). *)
Variable source_tree : nat -> otree.

(** [HasOType.otype_ok] for the input port [i]; [all_connections_found_in]
    raises nothing, so the short-circuit of [all] does not show. *)
Definition input_otype_ok (g : graph) (i : nat) : bool :=
  match g_inp_otype g i with
  | Some _ =>
      forallb (fun o => match g_out_otype g o with
                        | Some _ => all_connections_found_in g o (source_tree i)
                        | None => true
                        end) (g_inp_connections g i)
  | None => true
  end.
End OTypeOk.

(* ------------------------------------------------------------------ *)
(** ** Closing the controller's widgets (control.py) *)

(** The loop [for c in w.children: self._close_widget(c)]. *)
Fixpoint close_children (cs : list wtree) (closed : list nat) : list nat :=
  match cs with
  | [] => closed
  | c :: cs' => close_children cs' (close_widget c closed)
  end.

(** The three widgets the controller keeps ([None] when not drawn). *)
Record ctrl_widgets := mkCtrlWidgets {
  input_widget : option wtree;
  input_box_w : option wtree;
  info_box : option wtree;
}.

(** [NodeController.clear]: the widgets afterwards and the identities
    closed, in call order, appended to [closed].  Emptying
    [self.box.children] and its border is not modelled. *)
Definition clear (ws : ctrl_widgets) (closed : list nat) : ctrl_widgets * list nat :=
  (mkCtrlWidgets None None None,
   fold_left (fun acc w => match w with Some w => close_widget w acc | None => acc end)
     [input_widget ws; input_box_w ws; info_box ws] closed).

(* ------------------------------------------------------------------ *)
(** ** Vocabulary of the statements *)

(** The Python computation [m] returns a boolean (raises nothing), and that
    boolean is [True] exactly when [P] holds. *)
Definition returns_iff (m : res bool) (P : Prop) : Prop :=
  exists b, m = Ok b /\ (b = true <-> P).

(** [c] is a subclass of at least one class in [reference]. *)
Definition sub_some (c : cls) (reference : list classinfo) : Prop :=
  exists d, In (KClass d) reference /\ cls_sub c d = true.

(** The eight classes [DType.from_str] looks at, in its order. *)
Definition from_str_classes : list cls :=
  [CBoolean; CChar; CChoice; CData; CFloatD; CInteger; CListD; CString].

(** A port after [input_field_list] has read its dtype state, when that
    state has no ["batched"] entry: [inp.val = dtype_state["val"]] has run
    if [val] was [None] and the state has a ["val"] entry (the replacement
    dict when serialization fails, or a state whose [_data] lists
    ["val"]). *)
Definition filled_first (serializable : node_input -> bool) (core_data : list string)
    (inp : node_input) : node_input :=
  match inp_val inp with
  | VNone =>
      if serializable inp then
        match inp_dtype inp with
        | Some d => if existsb (String.eqb "val") core_data
                    then set_inp_val inp (dval d) else inp
        | None => inp
        end
      else set_inp_val inp (ds_val serialization_error_state)
  | _ => inp
  end.

(** The identities of the widgets of an optional tree. *)
Definition opt_ids (w : option wtree) : list nat :=
  match w with Some w => wtree_ids w | None => [] end.

(** A one-output graph with no inputs. *)
Definition lone_output_graph (t : otype) : graph :=
  mkGraph (fun _ => Some t) (fun _ => []) (fun _ => None) (fun _ => []).

(* ================================================================== *)
(** * Proofs *)

Lemma cls_eqb_eq a b : cls_eqb a b = true <-> a = b.
Proof. destruct a, b; simpl; split; intro H; congruence. Qed.

Lemma res_map_ok {A B} (f : A -> res B) (g : A -> B) (xs : list A) :
  (forall x, In x xs -> f x = Ok (g x)) -> res_map f xs = Ok (map g xs).
Proof.
  induction xs as [|x xs IH]; intros H; [reflexivity|].
  cbn. rewrite (H x (or_introl eq_refl)). cbn.
  rewrite IH; [reflexivity|]. intros y Hy. apply H. now right.
Qed.

Lemma existsb_id_map {A} (f : A -> bool) (xs : list A) :
  existsb id (map f xs) = existsb f xs.
Proof. induction xs; simpl; congruence. Qed.

Lemma forallb_id_map {A} (f : A -> bool) (xs : list A) :
  forallb id (map f xs) = forallb f xs.
Proof. induction xs; simpl; congruence. Qed.

Lemma all_classes_In vc k : all_classes vc = true -> In k vc -> exists c, k = KClass c.
Proof.
  unfold all_classes. rewrite forallb_forall. intros H Hk.
  specialize (H k Hk). destruct k; [eauto | discriminate].
Qed.

(** Subclass test of [c] against every entry, when all are classes. *)
Definition sub_someb (c : cls) (reference : list classinfo) : bool :=
  existsb (fun r => match r with KClass d => cls_sub c d | KOther _ => false end) reference.

Lemma sub_someb_spec c reference : sub_someb c reference = true <-> sub_some c reference.
Proof.
  unfold sub_someb, sub_some. rewrite existsb_exists. split.
  - intros [[d|w] [Hin Hs]]; [eauto | discriminate].
  - intros [d [Hin Hs]]. exists (KClass d). auto.
Qed.

Lemma issubclass_row c reference :
  all_classes reference = true ->
  res_map (py_issubclass (KClass c)) reference
  = Ok (map (fun r => match r with KClass d => cls_sub c d | KOther _ => false end) reference).
Proof.
  intros H. apply res_map_ok. intros r Hr.
  destruct (all_classes_In _ _ H Hr) as [d ->]. reflexivity.
Qed.

Lemma other_types_are_subset_ok other reference :
  all_classes other = true -> all_classes reference = true ->
  other_types_are_subset other reference
  = Ok (forallb (fun o => match o with KClass c => sub_someb c reference | KOther _ => false end) other).
Proof.
  intros Ho Hr. unfold other_types_are_subset.
  rewrite (res_map_ok _ (fun o => match o with KClass c => sub_someb c reference
                                            | KOther _ => false end)).
  - cbn. now rewrite forallb_id_map.
  - intros o Hin. destruct (all_classes_In _ _ Ho Hin) as [c ->].
    rewrite issubclass_row by exact Hr. cbn.
    now rewrite existsb_id_map.
Qed.

Lemma other_types_are_subset_spec other reference :
  all_classes other = true -> all_classes reference = true ->
  returns_iff (other_types_are_subset other reference)
    (forall c, In (KClass c) other -> sub_some c reference).
Proof.
  intros Ho Hr. rewrite other_types_are_subset_ok by assumption.
  eexists; split; [reflexivity|]. rewrite forallb_forall. split.
  - intros H c Hc. apply sub_someb_spec. exact (H _ Hc).
  - intros H o Ho'. destruct (all_classes_In _ _ Ho Ho') as [c ->].
    apply sub_someb_spec. auto.
Qed.

Lemma base_instance_matches_ok self v :
  all_classes (valid_classes self) = true ->
  base_instance_matches self v = Ok (sub_someb (type_of v) (valid_classes self)).
Proof.
  intros H. unfold base_instance_matches.
  rewrite (res_map_ok _ (fun r => match r with KClass d => cls_sub (type_of v) d
                                          | KOther _ => false end)).
  - cbn. now rewrite existsb_id_map.
  - intros r Hr. destruct (all_classes_In _ _ H Hr) as [d ->]. reflexivity.
Qed.

Lemma py_set_In c l : In c (py_set l) <-> In c l.
Proof.
  induction l as [|a l IH]; simpl; [tauto|].
  destruct (existsb (cls_eqb a) l) eqn:E; simpl; rewrite IH; [|tauto].
  split; [tauto|]. intros [<-|H]; [|exact H].
  apply existsb_exists in E as [b [Hb Heq]]. apply cls_eqb_eq in Heq. now subst.
Qed.

Lemma all_classes_map_KClass l : all_classes (map KClass l) = true.
Proof. induction l; simpl; auto. Qed.

Lemma batched_items_spec self l :
  all_classes (valid_classes self) = true ->
  returns_iff (other_types_are_subset (map KClass (py_set (map type_of l))) (valid_classes self))
    (forall x, In x l -> sub_some (type_of x) (valid_classes self)).
Proof.
  intros H.
  destruct (other_types_are_subset_spec (map KClass (py_set (map type_of l)))
              (valid_classes self) (all_classes_map_KClass _) H) as [b [Hb Hiff]].
  exists b. split; [exact Hb|]. rewrite Hiff. split.
  - intros Hall x Hx. apply Hall. apply in_map, py_set_In, in_map, Hx.
  - intros Hall c Hc. apply in_map_iff in Hc as [c' [Heq Hc']]. injection Heq as ->.
    apply py_set_In, in_map_iff in Hc' as [x [<- Hx]]. auto.
Qed.

(** Char's default [valid_classes] entry is the function [chr], so its
    [matches] raises on every value that is not [None]. *)
Example char_matches_raises {py_eq_inst : PyEq} :
  matches (char_init (VStr "") None None false) (AVal (VStr "a")) = Raise TypeError.
Proof. reflexivity. Qed.

(** ** C1 *)

(** C1 (as stated, counterexample): [Choice(items=[1])] has no valid
    classes, yet [matches(1)] returns [True]: for a [Choice], a value that is
    neither [None] nor a DType is matched against [items], not against
    [valid_classes]. *)
Lemma matches_choice_counterexample :
  let self := choice_init VNone (Some [VInt 1]) None None false in
  @matches basic_eq self (AVal (VInt 1)) = Ok true
  /\ ~ sub_some (type_of (VInt 1)) (valid_classes self).
Proof.
  split; [reflexivity|]. intros [d [Hin _]]. exact Hin.
Qed.

(** C1 (amended): when every entry of the [valid_classes] lists involved is
    a class, [matches] returns, for a DType argument, [True] iff it is an
    instance of [self]'s class, its classes are each a subclass of one of
    [self]'s, and it does not allow [None] when [self] does not; for [None],
    [self.allow_none]; for any other value, [val in self.items] on a
    [Choice], the all-items check on a [BatchedData], and "instance of some
    valid class" on every other dtype class. *)
Theorem matches_dispatch {py_eq_inst : PyEq} (self d : dtype) (v : pyval)
    (Hself : all_classes (valid_classes self) = true)
    (Hd : all_classes (valid_classes d) = true) :
  returns_iff (matches self (ADType d))
    (cls_sub (dkind d) (dkind self) = true
     /\ (forall c, In (KClass c) (valid_classes d) -> sub_some c (valid_classes self))
     /\ ~ (allow_none d = true /\ allow_none self = false))
  /\ matches self (AVal VNone) = Ok (allow_none self)
  /\ (v <> VNone ->
      (dkind self = CChoice -> matches self (AVal v) = py_in v (items self))
      /\ (dkind self = CBatchedData ->
          returns_iff (matches self (AVal v))
            (exists l, (v = VList l \/ v = VArr l)
                       /\ forall x, In x l -> sub_some (type_of x) (valid_classes self)))
      /\ (dkind self <> CChoice -> dkind self <> CBatchedData ->
          returns_iff (matches self (AVal v)) (sub_some (type_of v) (valid_classes self)))).
Proof.
  split; [|split; [reflexivity|]].
  - cbn [matches]. unfold dtype_matches.
    destruct (cls_sub (dkind d) (dkind self)) eqn:Ek.
    + destruct (other_types_are_subset_spec _ _ Hd Hself) as [b [Hb Hiff]].
      rewrite Hb. cbn. eexists; split; [reflexivity|].
      rewrite andb_true_iff, Hiff, negb_true_iff, andb_false_iff, negb_false_iff.
      destruct (allow_none d), (allow_none self); intuition congruence.
    + exists false. split; [reflexivity|]. intuition congruence.
  - intros Hv. assert (Hm : matches self (AVal v) = instance_matches self v)
      by (destruct v; [congruence|reflexivity..]).
    rewrite Hm. unfold instance_matches. repeat split.
    + intros ->. reflexivity.
    + intros ->. unfold batched_instance_matches.
      destruct v as [| | | |l|l|];
        try (exists false; split; [reflexivity|];
             split; [discriminate | intros [l [[Hl|Hl] _]]; discriminate]).
      * destruct (batched_items_spec self l Hself) as [b [Hb Hiff]].
        exists b. split; [exact Hb|]. rewrite Hiff. split.
        -- intros H. exists l. auto.
        -- intros [l' [[Hl|Hl] H]]; [injection Hl as ->; exact H | discriminate].
      * destruct (batched_items_spec self l Hself) as [b [Hb Hiff]].
        exists b. split; [exact Hb|]. rewrite Hiff. split.
        -- intros H. exists l. auto.
        -- intros [l' [[Hl|Hl] H]]; [discriminate | injection Hl as ->; exact H].
    + intros Hc Hb.
      assert (Hdisp : match dkind self with
                      | CBatchedData => batched_instance_matches self v
                      | CChoice => choice_instance_matches self v
                      | _ => base_instance_matches self v
                      end = base_instance_matches self v)
        by (destruct (dkind self); congruence).
      rewrite Hdisp, base_instance_matches_ok by exact Hself.
      eexists; split; [reflexivity|]. apply sub_someb_spec.
Qed.

Lemma matches_dispatch_witness :
  let I := integer_init (VInt 0) None None false in
  all_classes (valid_classes I) = true
  /\ returns_iff (@matches basic_eq I (AVal (VInt 3))) (sub_some (type_of (VInt 3)) (valid_classes I)).
Proof.
  split; [reflexivity|].
  destruct (@matches_dispatch basic_eq (integer_init (VInt 0) None None false)
              (integer_init (VInt 0) None None false) (VInt 3) eq_refl eq_refl)
    as [_ [_ H]].
  apply H; discriminate.
Defined.

(** ** C9 *)

Lemma string_app_inv_head (p a b : string) : (p ++ a = p ++ b)%string -> a = b.
Proof.
  induction p as [|c p IH]; simpl; [auto|]. intros H. injection H as H. auto.
Qed.

Lemma from_str_names_inj C C' :
  In C from_str_classes -> In C' from_str_classes -> cls_name C = cls_name C' -> C = C'.
Proof.
  unfold from_str_classes; simpl.
  intros H1 H2 Heq.
  repeat destruct H1 as [<-|H1]; try contradiction;
  repeat destruct H2 as [<-|H2]; try contradiction;
  try reflexivity; discriminate Heq.
Qed.

(** C9: [DType.from_str s] returns the class [C] exactly when [s] is
    ["DType."] followed by the name of one of Boolean, Char, Choice, Data,
    Float, Integer, List, String, and [None] for every other string, among
    them ["DType.BatchedData"] and ["DType.Untyped"]. *)
Theorem from_str_lookup :
  (forall s C, from_str s = Some C
               <-> In C from_str_classes /\ s = "DType." ++ cls_name C)
  /\ (forall s, from_str s = None
                <-> forall C, In C from_str_classes -> s <> "DType." ++ cls_name C)
  /\ from_str "DType.BatchedData" = None
  /\ from_str "DType.Untyped" = None.
Proof.
  split; [|split; [|split; reflexivity]].
  - intros s C. unfold from_str. split.
    + intros H. apply find_some in H as [Hin Heq].
      apply String.eqb_eq in Heq. auto.
    + intros [Hin ->].
      destruct (find _ _) as [C'|] eqn:E.
      * apply find_some in E as [Hin' Heq]. apply String.eqb_eq in Heq.
        apply string_app_inv_head in Heq.
        f_equal. apply from_str_names_inj; auto.
      * exfalso. eapply find_none in E; [|exact Hin].
        rewrite String.eqb_refl in E. discriminate.
  - intros s. unfold from_str. split.
    + intros E C Hin Hs. eapply find_none in E; [|exact Hin].
      subst s. rewrite String.eqb_refl in E. discriminate.
    + intros H. destruct (find _ _) as [C|] eqn:E; [|reflexivity].
      apply find_some in E as [Hin Heq]. apply String.eqb_eq in Heq.
      exfalso. exact (H C Hin Heq).
Qed.

(** ** C6 *)







(** ** C2 *)

(** C2: for a port with the [HasDType] mixin, [dtype_ok] is [True] when the
    dtype is [None]; with a dtype and [val] [None] it is [dtype.allow_none];
    with a dtype and any other [val] it is [dtype.valid_val(val)]; and
    [ready] holds iff both [dtype_ok] and [otype_ok] hold. *)
Theorem dtype_ok_ready {P : Type} `{HasDType P}
    (valid_val : dtype -> pyval -> bool) (otype_ok : P -> bool) (p : P) :
  (port_dtype p = None -> dtype_ok valid_val p = true)
  /\ (forall d, port_dtype p = Some d -> port_val p = VNone ->
        dtype_ok valid_val p = allow_none d)
  /\ (forall d, port_dtype p = Some d -> port_val p <> VNone ->
        dtype_ok valid_val p = valid_val d (port_val p))
  /\ (ready valid_val otype_ok p = true
      <-> dtype_ok valid_val p = true /\ otype_ok p = true).
Proof.
  split; [|split; [|split]].
  - unfold dtype_ok. intros ->. reflexivity.
  - unfold dtype_ok. intros d -> ->. reflexivity.
  - unfold dtype_ok. intros d -> Hv. destruct (port_val p); congruence.
  - unfold ready. apply andb_true_iff.
Qed.

Lemma dtype_ok_ready_witness :
  let p := mkNodeInput (Some (integer_init (VInt 0) None None false)) (VInt 5)
             0 0 "n" "data" None in
  port_dtype p = Some (integer_init (VInt 0) None None false)
  /\ port_val p <> VNone
  /\ dtype_ok (fun d v => match v with VNone => false | _ => true end) p
     = true.
Proof.
  split; [reflexivity|]. split; [discriminate|].
  destruct (dtype_ok_ready (fun d v => match v with VNone => false | _ => true end) (fun _ => true)
              (mkNodeInput (Some (integer_init (VInt 0) None None false)) (VInt 5)
                 0 0 "n" "data" None)) as [_ [_ [H _]]].
  apply (H (integer_init (VInt 0) None None false)); [reflexivity | discriminate].
Defined.

(** ** C3 *)

(** Every constructor of dtypes.py goes through [DType.__init__], which
    leaves the dtype without a [batched] attribute. *)
Lemma dtype_init_batched kind dflt ls vc an its :
  batched (dtype_init kind dflt ls vc an its) = None.
Proof. destruct ls as [[? ?]|]; reflexivity. Qed.

(** C3 (code bug): no dtype built by dtypes.py has the [batched] attribute
    that [NodeInput.batch] and [NodeInput.unbatch] read, so on a port with
    such a dtype both raise [AttributeError] at [self.dtype.batched] and
    change nothing: no flag is set, [val] is not wrapped or unwrapped and the
    node is not updated.  Only a dtype that has been given the attribute
    ([batched d = Some b]) behaves as described: there [batch()] sets the
    flag, wraps [val] exactly when the port has no connection and updates
    the node, [unbatch()] on a batched dtype clears it, takes the last item
    of [val] exactly when there is no connection and updates the node, and
    the other two calls change nothing. *)
Theorem batch_unbatch_missing_attribute (kind : cls) (dflt : pyval)
    (ls : option (list classinfo * bool)) (vc : option vc_arg) (an : bool)
    (its : list pyval) (d : dtype) (val : pyval) (conns idx : nat)
    (lbl ty : string) (ot : option otype) (ups : list nat) :
  let s0 := mkIState (mkNodeInput (Some (dtype_init kind dflt ls vc an its))
                        val conns idx lbl ty ot) ups in
  batch s0 = (s0, Raise AttributeError)
  /\ unbatch s0 = (s0, Raise AttributeError)
  /\ let s := mkIState (mkNodeInput (Some d) val conns idx lbl ty ot) ups in
     (batched d = Some false ->
        batch s = (mkIState (mkNodeInput (Some (set_batched d true))
                               (if Nat.eqb conns 0 then VList [val] else val)
                               conns idx lbl ty ot) (ups ++ [idx]), Ok tt)
        /\ unbatch s = (s, Ok tt))
     /\ (batched d = Some true ->
        batch s = (s, Ok tt)
        /\ (conns <> 0 ->
            unbatch s = (mkIState (mkNodeInput (Some (set_batched d false)) val
                                     conns idx lbl ty ot) (ups ++ [idx]), Ok tt))
        /\ (forall x, conns = 0 -> py_last val = Ok x ->
            unbatch s = (mkIState (mkNodeInput (Some (set_batched d false)) x
                                     conns idx lbl ty ot) (ups ++ [idx]), Ok tt))).
Proof.
  split; [|split].
  - unfold batch; cbn. rewrite dtype_init_batched. reflexivity.
  - unfold unbatch; cbn. rewrite dtype_init_batched. reflexivity.
  - intros s. split.
    + intros Hb. unfold s, batch, unbatch; cbn. rewrite Hb. cbn.
      split; [|reflexivity].
      destruct (Nat.eqb conns 0); reflexivity.
    + intros Hb. unfold s, batch, unbatch; cbn. rewrite Hb. cbn.
      split; [reflexivity|]. split.
      * intros Hc. apply Nat.eqb_neq in Hc. rewrite Hc. reflexivity.
      * intros x Hc Hx. subst conns. cbn. rewrite Hx. reflexivity.
Qed.

Lemma batch_unbatch_missing_attribute_witness :
  let s0 := mkIState (mkNodeInput (Some (integer_init (VInt 0) None None false))
                        (VInt 4) 0 2 "n" "data" None) [] in
  batch s0 = (s0, Raise AttributeError)
  /\ batched (set_batched (integer_init (VInt 0) None None false) false) = Some false
  /\ batch (mkIState (mkNodeInput (Some (set_batched (integer_init (VInt 0) None None false) false))
                        (VInt 4) 0 2 "n" "data" None) [])
     = (mkIState (mkNodeInput (Some (set_batched (set_batched (integer_init (VInt 0) None None false) false) true))
                    (VList [VInt 4]) 0 2 "n" "data" None) [2], Ok tt).
Proof.
  destruct (batch_unbatch_missing_attribute CInteger (VInt 0) None
              (Some (VCList [KClass CInt; KClass CNpInteger])) false []
              (set_batched (integer_init (VInt 0) None None false) false)
              (VInt 4) 0 2 "n" "data" None []) as [H1 [_ [H3 _]]].
  split; [exact H1|]. split; [reflexivity|].
  apply H3. reflexivity.
Defined.

(** ** C4 *)

(** C4 (code bug): on an unconnected port whose dtype comes from dtypes.py,
    [batch()] followed by [unbatch()] is no round trip: both calls raise
    [AttributeError] (the dtype has no [batched] attribute) and the port and
    the node's updates stay as they were.  The round trip holds only for a
    dtype that has been given the attribute with value [False]: then the
    port comes back exactly and the node has been updated twice. *)
Theorem batch_then_unbatch_missing_attribute (kind : cls) (dflt : pyval)
    (ls : option (list classinfo * bool)) (vc : option vc_arg) (an : bool)
    (its : list pyval) (val : pyval) (idx : nat) (lbl ty : string)
    (ot : option otype) (ups : list nat) :
  let s0 := mkIState (mkNodeInput (Some (dtype_init kind dflt ls vc an its))
                        val 0 idx lbl ty ot) ups in
  batch s0 = (s0, Raise AttributeError)
  /\ unbatch (fst (batch s0)) = (s0, Raise AttributeError)
  /\ (forall (p : node_input) (d : dtype) (us : list nat),
        inp_dtype p = Some d -> batched d = Some false -> inp_connections p = 0 ->
        unbatch (fst (batch (mkIState p us)))
        = (mkIState p (us ++ [inp_index p; inp_index p]), Ok tt)).
Proof.
  split; [|split].
  - unfold batch; cbn. rewrite dtype_init_batched. reflexivity.
  - unfold batch; cbn. rewrite dtype_init_batched. cbn.
    unfold unbatch; cbn. rewrite dtype_init_batched. reflexivity.
  - intros p d us Hd Hb Hc.
    destruct p as [dt v conns i l t o]; cbn in Hd, Hc. subst dt conns.
    unfold batch; cbn. rewrite Hb. cbn.
    unfold unbatch; cbn. destruct d as [k df dv dvc dan b dits]; cbn in Hb |- *. subst b.
    unfold update_node; cbn. rewrite <- app_assoc. reflexivity.
Qed.

Lemma batch_then_unbatch_missing_attribute_witness :
  let d := set_batched (integer_init (VInt 0) None None false) false in
  let p := mkNodeInput (Some d) (VInt 7) 0 1 "n" "data" None in
  unbatch (fst (batch (mkIState p []))) = (mkIState p [1; 1], Ok tt).
Proof.
  destruct (batch_then_unbatch_missing_attribute CInteger (VInt 0) None None false []
              (VInt 7) 1 "n" "data" None []) as [_ [_ H]].
  apply (H (mkNodeInput (Some (set_batched (integer_init (VInt 0) None None false) false))
              (VInt 7) 0 1 "n" "data" None)
           (set_batched (integer_init (VInt 0) None None false) false) []);
    reflexivity.
Defined.

(** ** C7 *)

Lemma add_otype_data_lookup (ot : option otype) (data : pydict) (k : string) :
  k <> "otype_namespace" -> k <> "otype_name" ->
  add_otype_data ot data !! k = data !! k.
Proof.
  intros H1 H2. destruct ot; cbn; [|reflexivity].
  rewrite !lookup_insert_ne by congruence. reflexivity.
Qed.

Lemma add_otype_data_keys (ot : option otype) (data : pydict) :
  data !! "otype_namespace" = None -> data !! "otype_name" = None ->
  (is_Some (add_otype_data ot data !! "otype_namespace") <-> ot <> None)
  /\ (is_Some (add_otype_data ot data !! "otype_name") <-> ot <> None).
Proof.
  intros H1 H2. destruct ot as [o|]; cbn.
  - rewrite lookup_insert_eq, lookup_insert_ne, lookup_insert_eq by discriminate.
    split; split; eauto; discriminate.
  - rewrite H1, H2.
    split; split; intros H; try congruence; destruct H; discriminate.
Qed.

(** C7: [NodeOutput.data()] keeps every key of the ryvencore dict that is
    not one of ["dtype"], ["dtype state"], ["otype_namespace"], ["otype_name"]
    (so, when the core dict has none of these, it keeps every pair), and has
    ["dtype"] and ["dtype state"] exactly when the dtype is not [None] and
    the two otype keys exactly when the otype is not [None];
    [NodeInput.data()] only adds the two otype keys, exactly when the otype
    is not [None]. *)
Theorem port_data_adds_keys (core_input_data : node_input -> pydict)
    (core_output_data : node_output -> pydict) (serialize_state : dtype -> string) :
  (forall (p : node_output),
     let data := output_data core_output_data serialize_state p in
     (forall k, k ∉ ["dtype"; "dtype state"; "otype_namespace"; "otype_name"] ->
        data !! k = core_output_data p !! k)
     /\ ((forall k, k ∈ ["dtype"; "dtype state"; "otype_namespace"; "otype_name"] ->
           core_output_data p !! k = None) ->
         (forall k v, core_output_data p !! k = Some v -> data !! k = Some v)
         /\ (is_Some (data !! "dtype") <-> out_dtype p <> None)
         /\ (is_Some (data !! "dtype state") <-> out_dtype p <> None)
         /\ (is_Some (data !! "otype_namespace") <-> out_otype p <> None)
         /\ (is_Some (data !! "otype_name") <-> out_otype p <> None)))
  /\ (forall (p : node_input),
     let data := input_data core_input_data p in
     (forall k, k ∉ ["otype_namespace"; "otype_name"] ->
        data !! k = core_input_data p !! k)
     /\ ((forall k, k ∈ ["otype_namespace"; "otype_name"] ->
           core_input_data p !! k = None) ->
         (forall k v, core_input_data p !! k = Some v -> data !! k = Some v)
         /\ (is_Some (data !! "otype_namespace") <-> inp_otype p <> None)
         /\ (is_Some (data !! "otype_name") <-> inp_otype p <> None))).
Proof.
  split.
  - intros p data.
    assert (Hkeep : forall k, k ∉ ["dtype"; "dtype state"; "otype_namespace"; "otype_name"] ->
                    data !! k = core_output_data p !! k).
    { intros k Hk. unfold data, output_data.
      rewrite add_otype_data_lookup by set_solver.
      destruct (out_dtype p); [|reflexivity].
      rewrite !lookup_insert_ne by set_solver. reflexivity. }
    split; [exact Hkeep|]. intros Hnone.
    assert (Hd : forall k, k ∈ ["dtype"; "dtype state"] ->
              (output_data core_output_data serialize_state p) !! k
              = match out_dtype p with
                | Some d => Some (VStr (if String.eqb k "dtype" then dtype_str d
                                        else serialize_state d))
                | None => None
                end).
    { intros k Hk. unfold output_data.
      rewrite add_otype_data_lookup by set_solver.
      apply elem_of_cons in Hk as [->|Hk];
        [|apply list_elem_of_singleton in Hk as ->];
        destruct (out_dtype p) as [d|]; cbn;
        rewrite ?lookup_insert_eq, ?lookup_insert_ne, ?lookup_insert_eq by discriminate;
        try reflexivity; apply Hnone; set_solver. }
    split; [|split; [|split]].
    + intros k v Hv. destruct (decide (k ∈ ["dtype"; "dtype state"; "otype_namespace"; "otype_name"])).
      * rewrite Hnone in Hv by assumption. discriminate.
      * rewrite Hkeep by assumption. exact Hv.
    + unfold data. rewrite Hd by set_solver.
      destruct (out_dtype p); split; eauto; try congruence; intros [? ?]; discriminate.
    + unfold data. rewrite Hd by set_solver.
      destruct (out_dtype p); split; eauto; try congruence; intros [? ?]; discriminate.
    + unfold data, output_data.
      apply add_otype_data_keys;
        destruct (out_dtype p); cbn;
        rewrite ?lookup_insert_ne by discriminate; apply Hnone; set_solver.
  - intros p data. split.
    + intros k Hk. unfold data, input_data.
      apply add_otype_data_lookup; set_solver.
    + intros Hnone. split.
      * intros k v Hv. destruct (decide (k ∈ ["otype_namespace"; "otype_name"])).
        -- rewrite Hnone in Hv by assumption. discriminate.
        -- unfold data, input_data. rewrite add_otype_data_lookup by set_solver. exact Hv.
      * unfold data, input_data. apply add_otype_data_keys; apply Hnone; set_solver.
Qed.

Lemma port_data_adds_keys_witness :
  let core_out := fun (_ : node_output) => ({["label" := VStr "bar"]} : pydict) in
  let core_in := fun (_ : node_input) => ({["label" := VStr "foo"]} : pydict) in
  let p := mkNodeOutput (Some (integer_init (VInt 0) None None false)) VNone None in
  (forall k, k ∈ ["dtype"; "dtype state"; "otype_namespace"; "otype_name"] ->
     core_out p !! k = None)
  /\ (is_Some (output_data core_out (fun _ => "state") p !! "dtype")
      <-> out_dtype p <> None).
Proof.
  assert (Hn : forall k, k ∈ ["dtype"; "dtype state"; "otype_namespace"; "otype_name"] ->
                ({["label" := VStr "bar"]} : pydict) !! k = None).
  { intros k Hk. apply lookup_singleton_ne. set_solver. }
  split; [exact Hn|].
  destruct (port_data_adds_keys (fun _ => {["label" := VStr "foo"]})
              (fun _ => {["label" := VStr "bar"]}) (fun _ => "state")) as [Hout _].
  destruct (Hout (mkNodeOutput (Some (integer_init (VInt 0) None None false)) VNone None))
    as [_ H].
  apply H. exact Hn.
Defined.

(** ** C8 *)

(** C8: a freshly constructed DType (no [_load_state]) stores its
    [valid_classes] in a new list object, distinct from every object that
    existed before (the caller's list among them): the copy of a list
    argument, the one-element list of another object, or the empty list
    for [None].  Objects that existed before are unchanged, and a later
    update of any of them leaves the new list alone.  [allow_none] is the
    argument, and both names are registered with [add_data]. *)
Theorem dtype_init_fresh_valid_classes (core_data : list string)
    (h : Alloc.heap) (vc : Alloc.harg) (an : bool)
    (Hwf : match vc with Alloc.HList a => is_Some (h !! a) | _ => True end) :
  exists h' d,
    Alloc.dtype_init core_data h None vc an = Some (h', d)
    /\ (Alloc.h_valid_classes d ∉ dom h)
    /\ (forall a, vc = Alloc.HList a -> h' !! Alloc.h_valid_classes d = h !! a)
    /\ (forall k, vc = Alloc.HOther k -> h' !! Alloc.h_valid_classes d = Some [k])
    /\ (vc = Alloc.HNone -> h' !! Alloc.h_valid_classes d = Some [])
    /\ (forall l, l ∈ dom h -> h' !! l = h !! l)
    /\ (forall a xs, a ∈ dom h ->
          (<[a := xs]> h') !! Alloc.h_valid_classes d = h' !! Alloc.h_valid_classes d)
    /\ Alloc.h_allow_none d = an
    /\ "valid_classes" ∈ Alloc.h_data d
    /\ "allow_none" ∈ Alloc.h_data d.
Proof.
  set (l := fresh (dom h)).
  assert (Hl : l ∉ dom h) by apply is_fresh.
  assert (Hc : exists xs, match vc with
                          | Alloc.HList a => h !! a
                          | Alloc.HOther k => Some [k]
                          | Alloc.HNone => Some []
                          end = Some xs).
  { destruct vc as [|a|k]; [eauto | exact Hwf | eauto]. }
  destruct Hc as [xs Hxs].
  exists (<[l := xs]> h),
    (Alloc.mkHDType l an
       (Alloc.add_data (Alloc.add_data core_data "valid_classes") "allow_none")).
  split.
  { unfold Alloc.dtype_init. cbn. rewrite Hxs. reflexivity. }
  cbn. split; [exact Hl|].
  split; [|split; [|split; [|split; [|split; [|split; [reflexivity|]]]]]].
  - intros a ->. rewrite lookup_insert_eq. symmetry. exact Hxs.
  - intros k ->. rewrite lookup_insert_eq. symmetry. exact Hxs.
  - intros ->. rewrite lookup_insert_eq. symmetry. exact Hxs.
  - intros l' Hl'. rewrite lookup_insert_ne; [reflexivity|]. intros <-. contradiction.
  - intros a ys Ha. rewrite lookup_insert_ne; [reflexivity|]. intros <-. contradiction.
  - unfold Alloc.add_data. split; set_solver.
Qed.

Lemma dtype_init_fresh_valid_classes_witness :
  let h := ({[1%positive := [KClass CInt; KClass CNpInteger]]} : Alloc.heap) in
  is_Some (h !! 1%positive)
  /\ exists h' d,
       Alloc.dtype_init ["default"; "val"; "doc"; "bounds"] h None (Alloc.HList 1%positive) false
       = Some (h', d)
       /\ (Alloc.h_valid_classes d ∉ dom h).
Proof.
  split; [eexists; reflexivity|].
  destruct (dtype_init_fresh_valid_classes ["default"; "val"; "doc"; "bounds"]
              {[1%positive := [KClass CInt; KClass CNpInteger]]} (Alloc.HList 1%positive) false
              ltac:(eexists; reflexivity))
    as [h' [d [H1 [H2 _]]]].
  exists h', d. split; assumption.
Defined.

(** ** C5 *)

Lemma existsb_app_false {A} (f : A -> bool) (l1 l2 : list A) :
  existsb f l1 = false -> existsb f l2 = false -> existsb f (l1 ++ l2)%list = false.
Proof. intros H1 H2. rewrite existsb_app, H1, H2. reflexivity. Qed.

Lemma existsb_eqb_not_In (x : string) (l : list string) :
  ~ In x l -> existsb (String.eqb x) l = false.
Proof.
  intros H. apply not_true_iff_false. intros E.
  apply existsb_exists in E as [y [Hy Hxy]]. apply String.eqb_eq in Hxy. subst y. auto.
Qed.

(** Without ["batched"] among the registered names, one step of
    [input_field_list] fills the port as [filled_first] says and raises
    [KeyError]. *)
Lemma input_field_key_error serializable trait_valid core_data n inp :
  ~ In "batched" core_data ->
  input_field serializable trait_valid core_data n inp
  = (filled_first serializable core_data inp, Raise KeyError).
Proof.
  intros Hcore. unfold input_field, filled_first.
  destruct (inp_dtype inp) as [d|] eqn:Ed.
  2: { destruct (serializable inp), (inp_val inp); reflexivity. }
  assert (Hkb : existsb (String.eqb "batched") (core_data ++ own_data_names (dkind d))%list
                = false).
  { apply existsb_app_false; [apply existsb_eqb_not_In, Hcore|].
    destruct (dkind d); reflexivity. }
  assert (Hkv : existsb (String.eqb "val") (core_data ++ own_data_names (dkind d))%list
                = existsb (String.eqb "val") core_data).
  { rewrite existsb_app. replace (existsb (String.eqb "val") (own_data_names (dkind d)))
      with false by (destruct (dkind d); reflexivity). apply orb_false_r. }
  destruct (serializable inp).
  - unfold get_state. rewrite Hkb.
    unfold dstate_val, dstate_batched, has_key. cbn [ds_keys ds_val]. rewrite Hkb, Hkv.
    destruct (inp_val inp); try reflexivity.
    destruct (existsb (String.eqb "val") core_data); reflexivity.
  - destruct (inp_val inp); reflexivity.
Qed.

Lemma input_field_list_key_error serializable trait_valid core_data n :
  ~ In "batched" core_data ->
  input_field_list serializable trait_valid core_data n
  = match node_inputs n with
    | Some (inp :: rest) =>
        (Some (filled_first serializable core_data inp :: rest), Raise KeyError)
    | Some [] => (Some [], Ok [])
    | None => (None, Ok [])
    end.
Proof.
  intros Hcore. unfold input_field_list.
  destruct (node_inputs n) as [[|inp rest]|]; [reflexivity| |reflexivity].
  cbn [input_fields]. rewrite (input_field_key_error _ _ _ n inp Hcore). reflexivity.
Qed.

(** C5 (code bug): the dtype state that [input_field_list] reads is built
    from the names the dtype registers in [_data], and neither ryvencore's
    base constructor nor any constructor of dtypes.py registers ["batched"].
    So for a node with at least one input, [dtype_state["batched"]] (or,
    without a dtype, [inp.data()["dtype state"]]) raises [KeyError] while
    the first input is processed, and no row of widgets is ever returned;
    only a node without inputs gets its (empty) list of rows. *)
Theorem input_field_list_missing_batched (serializable : node_input -> bool)
    (trait_valid : widget -> bool) (core_data : list string) (n : node)
    (Hcore : ~ In "batched" core_data) :
  snd (input_field_list serializable trait_valid core_data n)
  = match node_inputs n with
    | Some (_ :: _) => Raise KeyError
    | _ => Ok []
    end.
Proof.
  rewrite (input_field_list_key_error _ _ _ n Hcore).
  destruct (node_inputs n) as [[|? ?]|]; reflexivity.
Qed.

Lemma input_field_list_missing_batched_witness :
  let I := integer_init (VInt 0) None None false in
  ~ In "batched" ["default"; "val"; "doc"; "bounds"]
  /\ snd (input_field_list (fun _ => true) (fun _ => true) ["default"; "val"; "doc"; "bounds"]
            (mkNode (Some [mkNodeInput (Some I) (VInt 4) 0 0 "x" "data" None]) false true))
     = Raise KeyError.
Proof.
  assert (H : ~ In "batched" ["default"; "val"; "doc"; "bounds"])
    by (cbn; intros [H|[H|[H|[H|[]]]]]; discriminate H).
  split; [exact H|].
  exact (input_field_list_missing_batched (fun _ => true) (fun _ => true)
           ["default"; "val"; "doc"; "bounds"]
           (mkNode (Some [mkNodeInput (Some (integer_init (VInt 0) None None false))
                            (VInt 4) 0 0 "x" "data" None]) false true) H).
Defined.


(** ** DType matching between dtypes *)

Lemma cls_sub_refl c : cls_sub c c = true.
Proof. destruct c; reflexivity. Qed.

Lemma cls_sub_trans c d e : cls_sub c d = true -> cls_sub d e = true -> cls_sub c e = true.
Proof.
  intros H1 H2. destruct c, d; cbn in H1; try discriminate;
    destruct e; cbn in H2 |- *; congruence.
Qed.

Lemma dtype_matches_ok (self d : dtype) :
  all_classes (valid_classes self) = true -> all_classes (valid_classes d) = true ->
  returns_iff (dtype_matches self d)
    (cls_sub (dkind d) (dkind self) = true
     /\ (forall c, In (KClass c) (valid_classes d) -> sub_some c (valid_classes self))
     /\ ~ (allow_none d = true /\ allow_none self = false)).
Proof.
  intros Hs Hd. unfold dtype_matches.
  destruct (cls_sub (dkind d) (dkind self)) eqn:Ek.
  - destruct (other_types_are_subset_spec _ _ Hd Hs) as [b [Hb Hiff]].
    rewrite Hb. cbn. eexists; split; [reflexivity|].
    rewrite andb_true_iff, Hiff, negb_true_iff, andb_false_iff, negb_false_iff.
    destruct (allow_none d), (allow_none self); intuition congruence.
  - exists false. split; [reflexivity|]. intuition congruence.
Qed.

(** Every dtype whose valid classes are classes matches itself. *)
Theorem matches_dtype_refl {py_eq_inst : PyEq} (d : dtype) (Hd : all_classes (valid_classes d) = true) :
  matches d (ADType d) = Ok true.
Proof.
  destruct (dtype_matches_ok d d Hd Hd) as [b [Hb Hiff]].
  cbn [matches]. rewrite Hb. f_equal. apply Hiff.
  split; [apply cls_sub_refl|]. split.
  - intros c Hc. exists c. split; [exact Hc | apply cls_sub_refl].
  - intros [H1 H2]. congruence.
Qed.

Lemma matches_dtype_refl_witness :
  all_classes (valid_classes (integer_init (VInt 0) None None false)) = true
  /\ @matches basic_eq (integer_init (VInt 0) None None false)
             (ADType (integer_init (VInt 0) None None false)) = Ok true.
Proof.
  split; [reflexivity|]. apply (@matches_dtype_refl basic_eq). reflexivity.
Defined.

(** Matching between dtypes is transitive: if [a] accepts [b] and [b]
    accepts [c], then [a] accepts [c]. *)
Theorem matches_dtype_trans {py_eq_inst : PyEq} (a b c : dtype)
    (Ha : all_classes (valid_classes a) = true)
    (Hb : all_classes (valid_classes b) = true)
    (Hc : all_classes (valid_classes c) = true) :
  matches a (ADType b) = Ok true -> matches b (ADType c) = Ok true ->
  matches a (ADType c) = Ok true.
Proof.
  cbn [matches]. intros Hab Hbc.
  destruct (dtype_matches_ok a b Ha Hb) as [x [Hx Hxi]].
  destruct (dtype_matches_ok b c Hb Hc) as [y [Hy Hyi]].
  destruct (dtype_matches_ok a c Ha Hc) as [z [Hz Hzi]].
  rewrite Hx in Hab. injection Hab as ->. rewrite Hy in Hbc. injection Hbc as ->.
  destruct (proj1 Hxi eq_refl) as [K1 [S1 N1]].
  destruct (proj1 Hyi eq_refl) as [K2 [S2 N2]].
  rewrite Hz. f_equal. apply Hzi. split; [|split].
  - eapply cls_sub_trans; eauto.
  - intros k Hk. destruct (S2 k Hk) as [m [Hm Hkm]].
    destruct (S1 m Hm) as [r [Hr Hmr]]. exists r. split; [exact Hr|].
    eapply cls_sub_trans; eauto.
  - intros [H1 H2]. destruct (allow_none b) eqn:E; [apply N1 | apply N2]; auto.
Qed.

Lemma matches_dtype_trans_witness :
  let a := dtype_init CDType VNone None (Some (VCList [KClass CInt])) true [] in
  let b := integer_init (VInt 0) None (Some (VCList [KClass CBool])) false in
  let c := integer_init (VInt 0) None (Some (VCList [KClass CBool])) false in
  all_classes (valid_classes a) = true /\ all_classes (valid_classes b) = true
  /\ all_classes (valid_classes c) = true
  /\ @matches basic_eq a (ADType c) = Ok true.
Proof.
  split; [reflexivity|]. split; [reflexivity|]. split; [reflexivity|].
  apply (@matches_dtype_trans basic_eq _ (integer_init (VInt 0) None (Some (VCList [KClass CBool])) false));
    reflexivity.
Defined.

(** A dtype with no valid classes ([Data()], [Choice()]) accepts a dtype of
    its class exactly when that one has no valid classes either and does not
    allow [None] unless it does; no [issubclass] is evaluated, so nothing
    raises. *)
Theorem matches_empty_valid_classes {py_eq_inst : PyEq} (self d : dtype) (Hself : valid_classes self = []) :
  matches self (ADType d)
  = Ok (cls_sub (dkind d) (dkind self)
        && match valid_classes d with [] => true | _ => false end
        && negb (allow_none d && negb (allow_none self))).
Proof.
  cbn [matches]. unfold dtype_matches, other_types_are_subset. rewrite Hself.
  rewrite (res_map_ok _ (fun _ => false)) by (intros; reflexivity).
  destruct (cls_sub (dkind d) (dkind self)); [|reflexivity]. cbn.
  destruct (valid_classes d); reflexivity.
Qed.

Lemma matches_empty_valid_classes_witness :
  valid_classes (data_init VNone None None false) = []
  /\ @matches basic_eq (data_init VNone None None false)
             (ADType (data_init VNone None (Some (VCOne (KOther "chr"))) false)) = Ok false.
Proof.
  split; [reflexivity|].
  rewrite (@matches_empty_valid_classes basic_eq (data_init VNone None None false) _ eq_refl).
  reflexivity.
Defined.

(** ** Default valid classes *)

(** With their default valid classes, [Integer] accepts exactly the
    instances of [int] (so also [bool]s) and [numpy.integer], [Float] those
    of [float] and [numpy.floating] (so no Python [int]), [Boolean] those of
    [bool] and [numpy.bool_] (so no [0] or [1]), [String] those of [str]. *)
Theorem default_dtypes_instance_check {py_eq_inst : PyEq} (dflt : pyval) (an : bool) (v : pyval)
    (Hv : v <> VNone) :
  matches (integer_init dflt None None an) (AVal v)
    = Ok (cls_sub (type_of v) CInt || cls_sub (type_of v) CNpInteger)
  /\ matches (float_init dflt None None an) (AVal v)
    = Ok (cls_sub (type_of v) CFloat || cls_sub (type_of v) CNpFloating)
  /\ matches (boolean_init dflt None None an) (AVal v)
    = Ok (cls_sub (type_of v) CBool || cls_sub (type_of v) CNpBool)
  /\ matches (string_init dflt None None an) (AVal v)
    = Ok (cls_sub (type_of v) CStr || cls_sub (type_of v) CNpStr).
Proof.
  destruct v; try congruence; cbn; rewrite ?orb_false_r; repeat split.
Qed.

Lemma default_dtypes_instance_check_witness :
  VBool true <> VNone
  /\ @matches basic_eq (integer_init (VInt 0) None None false) (AVal (VBool true)) = Ok true.
Proof.
  split; [discriminate|].
  destruct (@default_dtypes_instance_check basic_eq (VInt 0) false (VBool true) ltac:(discriminate))
    as [H _].
  exact H.
Defined.

(** ** BatchedData built from a dtype *)

(** A [BatchedData] built from [batched_dtype=bd] (a dtype with the default
    instance check) accepts a list without [None] items exactly when [bd]
    accepts every item. *)
Theorem batched_from_dtype_matches_items {py_eq_inst : PyEq} (dflt : pyval) (bd : dtype) (an : bool)
    (B : dtype) (l : list pyval)
    (HB : batched_data_init dflt (Some bd) None None an = Ok B)
    (Hc : all_classes (valid_classes bd) = true)
    (Hk : dkind bd <> CChoice /\ dkind bd <> CBatchedData)
    (Hn : ~ In VNone l) :
  returns_iff (matches B (AVal (VList l)))
    (forall x, In x l -> matches bd (AVal x) = Ok true).
Proof.
  cbn in HB. injection HB as <-.
  destruct (batched_items_spec
              (dtype_init CBatchedData dflt None (Some (VCList (valid_classes bd))) an [])
              l Hc) as [b [Hb Hiff]].
  exists b. split; [exact Hb|]. rewrite Hiff. cbn [valid_classes dtype_init].
  assert (Hx : forall x, In x l -> matches bd (AVal x) = Ok (sub_someb (type_of x) (valid_classes bd))).
  { intros x Hin. destruct Hk as [Hk1 Hk2].
    assert (Hm : matches bd (AVal x) = instance_matches bd x)
      by (destruct x; [contradiction | reflexivity..]).
    rewrite Hm. unfold instance_matches.
    destruct (dkind bd); try congruence; apply base_instance_matches_ok; exact Hc. }
  split.
  - intros H x Hin. rewrite (Hx x Hin). f_equal. apply sub_someb_spec. auto.
  - intros H x Hin. apply sub_someb_spec.
    specialize (H x Hin). rewrite (Hx x Hin) in H. congruence.
Qed.

Lemma batched_from_dtype_matches_items_witness :
  let I := integer_init (VInt 0) None None false in
  batched_data_init VNone (Some I) None None false
    = Ok (dtype_init CBatchedData VNone None (Some (VCList (valid_classes I))) false [])
  /\ returns_iff (@matches basic_eq (dtype_init CBatchedData VNone None
                             (Some (VCList (valid_classes I))) false [])
                          (AVal (VList [VInt 1; VBool false])))
       (forall x, In x [VInt 1; VBool false] -> @matches basic_eq I (AVal x) = Ok true).
Proof.
  split; [reflexivity|].
  apply (@batched_from_dtype_matches_items basic_eq VNone (integer_init (VInt 0) None None false) false);
    [reflexivity | reflexivity | split; discriminate | intros [H|[H|[]]]; discriminate].
Defined.

(** ** The saved dtype name *)

(** The ["dtype"] entry of [NodeOutput.data()] is a string that
    [DType.from_str] maps back to the dtype's class for the eight classes it
    knows, and to [None] for any other class ([BatchedData], [DType]). *)
Theorem output_data_dtype_from_str (core_output_data : node_output -> pydict)
    (serialize_state : dtype -> string) (p : node_output) (d : dtype)
    (Hd : out_dtype p = Some d) :
  exists s, output_data core_output_data serialize_state p !! "dtype" = Some (VStr s)
    /\ from_str s = if existsb (cls_eqb (dkind d)) from_str_classes
                    then Some (dkind d) else None.
Proof.
  exists (dtype_str d). split.
  - unfold output_data. rewrite add_otype_data_lookup by discriminate.
    rewrite Hd. rewrite lookup_insert_ne by discriminate.
    apply lookup_insert_eq.
  - destruct d as [[] ? ? ? ? ? ?]; reflexivity.
Qed.

Lemma output_data_dtype_from_str_witness :
  let B := dtype_init CBatchedData VNone None None false [] in
  out_dtype (mkNodeOutput (Some B) VNone None) = Some B
  /\ exists s, output_data (fun _ => ∅) (fun _ => "") (mkNodeOutput (Some B) VNone None)
                 !! "dtype" = Some (VStr s) /\ from_str s = None.
Proof.
  split; [reflexivity|].
  exact (output_data_dtype_from_str (fun _ => ∅) (fun _ => "")
           (mkNodeOutput (Some (dtype_init CBatchedData VNone None None false [])) VNone None)
           (dtype_init CBatchedData VNone None None false []) eq_refl).
Defined.

(** ** Batching a port *)

(** [NodeInput.batch] is idempotent where it returns normally (the port
    has no dtype, or its dtype has the [batched] attribute): on a port it
    has already batched it changes nothing and notifies the node no
    further. *)
Theorem batch_idempotent (s : istate) (Hok : snd (batch s) = Ok tt) :
  batch (fst (batch s)) = (fst (batch s), Ok tt).
Proof.
  destruct s as [[pd pv pc pi pl pt po] us].
  destruct pd as [[dk ddef dv dvc dan [[|]|] dit]|]; cbn in *; try reflexivity;
    try discriminate.
  destruct (Nat.eqb pc 0); reflexivity.
Qed.

Lemma batch_idempotent_witness :
  let s := mkIState (mkNodeInput (Some (set_batched (integer_init (VInt 0) None None false) false))
                       (VInt 4) 0 2 "n" "data" None) [] in
  snd (batch s) = Ok tt /\ batch (fst (batch s)) = (fst (batch s), Ok tt).
Proof.
  split; [reflexivity|].
  apply (batch_idempotent
           (mkIState (mkNodeInput (Some (set_batched (integer_init (VInt 0) None None false) false))
                        (VInt 4) 0 2 "n" "data" None) [])).
  reflexivity.
Defined.

(** On an unconnected batched port holding a non-empty list, unbatching and
    batching again keeps only the last item: the value becomes [[x]], the
    dtype is batched again, and the node is updated twice. *)
Theorem unbatch_then_batch_keeps_last (p : node_input) (d : dtype) (us : list nat)
    (l : list pyval) (x : pyval)
    (Hd : inp_dtype p = Some d) (Hb : batched d = Some true)
    (Hc : inp_connections p = 0) (Hv : inp_val p = VList (l ++ [x])%list) :
  batch (fst (unbatch (mkIState p us)))
  = (mkIState (set_inp_val p (VList [x])) (us ++ [inp_index p; inp_index p])%list, Ok tt).
Proof.
  destruct p as [pd pv pc pi pl pt po]; cbn in *. subst pd pc pv.
  destruct d as [dk ddef dv dvc dan db dit]; cbn in Hb; subst db.
  unfold unbatch. cbn. rewrite last_snoc. cbn.
  unfold batch, update_node. cbn.
  rewrite <- app_assoc. reflexivity.
Qed.

Lemma unbatch_then_batch_keeps_last_witness :
  let B := set_batched (integer_init (VInt 0) None None false) true in
  let p := mkNodeInput (Some B) (VList [VInt 1; VInt 2]) 0 3 "x" "data" None in
  batch (fst (unbatch (mkIState p [])))
  = (mkIState (set_inp_val p (VList [VInt 2])) [3; 3], Ok tt).
Proof.
  exact (unbatch_then_batch_keeps_last
           (mkNodeInput (Some (set_batched (integer_init (VInt 0) None None false) true))
              (VList [VInt 1; VInt 2]) 0 3 "x" "data" None)
           (set_batched (integer_init (VInt 0) None None false) true) [] [VInt 1] (VInt 2)
           eq_refl eq_refl eq_refl eq_refl).
Defined.

(** ** The controller's callbacks *)

(** [input_change_i(i_c)] sets the value of input [i_c] only and then
    updates the node at [i_c]; for an index past the last input it raises
    [IndexError] and changes nothing. *)
Theorem input_change_effect (i_c : nat) (v : pyval) (s : nstate) :
  match ns_inputs s !! i_c with
  | None => input_change i_c v s = (s, Raise IndexError)
  | Some p =>
      snd (input_change i_c v s) = Ok tt
      /\ ns_updates (fst (input_change i_c v s)) = (ns_updates s ++ [i_c])%list
      /\ forall j, ns_inputs (fst (input_change i_c v s)) !! j
                   = if decide (j = i_c) then Some (set_inp_val p v) else ns_inputs s !! j
  end.
Proof.
  unfold input_change. destruct (ns_inputs s !! i_c) as [p|] eqn:E; [|reflexivity].
  cbn. split; [reflexivity|]. split; [reflexivity|].
  intros j. destruct (decide (j = i_c)) as [->|Hne].
  - apply list_lookup_insert_eq. eapply lookup_lt_Some. exact E.
  - apply list_lookup_insert_ne. congruence.
Qed.




(** Switching batching of an unbatched input on and off again through the
    controller restores the node's inputs, connected or not; the node is
    updated twice at the port's index. *)
(** On a port whose dtype lacks the [batched] attribute (every dtype of
    dtypes.py), [toggle_batching_i(i_c)] swallows the [AttributeError] that
    [batch()] or [unbatch()] raises: it returns normally and changes
    nothing, no port and no update of the node. *)
Theorem toggle_batching_missing_attribute (serializable : node_input -> bool)
    (trait_valid : widget -> bool) (core_data : list string) (bu ibn : bool)
    (i_c : nat) (new : bool) (s : nstate) (p : node_input) (d : dtype)
    (Hp : ns_inputs s !! i_c = Some p) (Hd : inp_dtype p = Some d)
    (Hb : batched d = None) :
  toggle_batching serializable trait_valid core_data bu ibn i_c new s = (s, Ok tt).
Proof.
  unfold toggle_batching. rewrite Hp.
  assert (Hs : (if new then batch else unbatch) (mkIState p (ns_updates s))
               = (mkIState p (ns_updates s), Raise AttributeError)).
  { destruct new; unfold batch, unbatch; cbn; rewrite Hd, Hb; reflexivity. }
  rewrite Hs. cbn. rewrite list_insert_id by exact Hp.
  destruct s; reflexivity.
Qed.

Lemma toggle_batching_missing_attribute_witness :
  let p := mkNodeInput (Some (integer_init (VInt 0) None None false)) (VInt 4) 0 0 "x" "data" None in
  toggle_batching (fun _ => true) (fun _ => true) ["default"; "val"; "doc"; "bounds"]
    false true 0 true (mkNState [p] [])
  = (mkNState [p] [], Ok tt).
Proof.
  exact (toggle_batching_missing_attribute (fun _ => true) (fun _ => true)
           ["default"; "val"; "doc"; "bounds"] false true 0 true
           (mkNState [mkNodeInput (Some (integer_init (VInt 0) None None false))
                        (VInt 4) 0 0 "x" "data" None] [])
           _ (integer_init (VInt 0) None None false) eq_refl eq_refl
           (dtype_init_batched _ _ _ _ _ _)).
Defined.

(** On a port whose dtype has been given the [batched] attribute,
    switching batching on succeeds, and then the redraw ([self.draw()])
    raises [KeyError] at [dtype_state["batched"]] (the state has no such
    entry); [toggle_batching_i] does not catch it. *)
Theorem toggle_batching_redraw_key_error (serializable : node_input -> bool)
    (trait_valid : widget -> bool) (core_data : list string) (bu ibn : bool)
    (i_c : nat) (s : nstate) (p : node_input) (d : dtype) (b : bool)
    (Hcore : ~ In "batched" core_data)
    (Hp : ns_inputs s !! i_c = Some p) (Hd : inp_dtype p = Some d)
    (Hb : batched d = Some b) :
  snd (toggle_batching serializable trait_valid core_data bu ibn i_c true s) = Raise KeyError.
Proof.
  assert (Hlt : i_c < length (ns_inputs s)) by (eapply lookup_lt_Some; exact Hp).
  unfold toggle_batching. rewrite Hp.
  assert (Hs : exists st, batch (mkIState p (ns_updates s)) = (st, Ok tt)).
  { unfold batch; cbn. rewrite Hd, Hb. destruct b; eexists; reflexivity. }
  destruct Hs as [st Hst]. rewrite Hst. cbn.
  unfold draw.
  destruct (<[i_c := st_port st]> (ns_inputs s)) as [|x rest] eqn:E.
  - apply (f_equal length) in E. rewrite length_insert in E. cbn in E. lia.
  - cbn [input_fields]. rewrite (input_field_key_error _ _ _ _ x Hcore). reflexivity.
Qed.

Lemma toggle_batching_redraw_key_error_witness :
  let p := mkNodeInput (Some (set_batched (integer_init (VInt 0) None None false) false))
             (VInt 4) 0 0 "x" "data" None in
  ~ In "batched" ["default"; "val"; "doc"; "bounds"]
  /\ snd (toggle_batching (fun _ => true) (fun _ => true) ["default"; "val"; "doc"; "bounds"]
            false true 0 true (mkNState [p] []))
     = Raise KeyError.
Proof.
  assert (H : ~ In "batched" ["default"; "val"; "doc"; "bounds"])
    by (cbn; intros [H|[H|[H|[H|[]]]]]; discriminate H).
  split; [exact H|].
  exact (toggle_batching_redraw_key_error (fun _ => true) (fun _ => true)
           ["default"; "val"; "doc"; "bounds"] false true 0
           (mkNState [mkNodeInput (Some (set_batched (integer_init (VInt 0) None None false) false))
                        (VInt 4) 0 0 "x" "data" None] [])
           _ _ false H eq_refl eq_refl eq_refl).
Defined.

(** ** Drawing the input box *)

(** Since the dtype state has no ["batched"] entry, [draw_input_box] never
    returns a [GridBox]: it returns an empty [Output] for a node with no
    inputs (or none at all) and raises [KeyError] for any other node. *)
Theorem draw_input_box_missing_batched (serializable : node_input -> bool)
    (trait_valid : widget -> bool) (core_data : list string) (n : node)
    (Hcore : ~ In "batched" core_data) :
  draw_input_box serializable trait_valid core_data n
  = match node_inputs n with
    | Some (_ :: _) => Raise KeyError
    | _ => Ok OutputWidget
    end.
Proof.
  unfold draw_input_box. rewrite (input_field_list_key_error _ _ _ n Hcore).
  destruct (node_inputs n) as [[|? ?]|]; reflexivity.
Qed.

Lemma draw_input_box_missing_batched_witness :
  ~ In "batched" ["default"; "val"; "doc"; "bounds"]
  /\ draw_input_box (fun _ => true) (fun _ => true) ["default"; "val"; "doc"; "bounds"]
       (mkNode (Some [mkNodeInput (Some (integer_init (VInt 0) None None false))
                        (VInt 1) 0 0 "a" "data" None]) false false)
     = Raise KeyError.
Proof.
  assert (H : ~ In "batched" ["default"; "val"; "doc"; "bounds"])
    by (cbn; intros [H|[H|[H|[H|[]]]]]; discriminate H).
  split; [exact H|].
  exact (draw_input_box_missing_batched (fun _ => true) (fun _ => true)
           ["default"; "val"; "doc"; "bounds"]
           (mkNode (Some [mkNodeInput (Some (integer_init (VInt 0) None None false))
                            (VInt 1) 0 0 "a" "data" None]) false false) H).
Defined.

(** ** What drawing does to the ports *)

(** Since the dtype state has no ["batched"] entry, [input_field_list]
    stops at the first input: only that one can change, and only when its
    [val] was [None]: it gets the dtype's [val] when the state serializes
    and has a ["val"] entry, the serialization error message when it does
    not serialize; every later input is left as it was. *)
Theorem input_field_list_fills_first (serializable : node_input -> bool)
    (trait_valid : widget -> bool) (core_data : list string) (n : node)
    (inp : node_input) (rest : list node_input)
    (Hcore : ~ In "batched" core_data) (Hn : node_inputs n = Some (inp :: rest)) :
  fst (input_field_list serializable trait_valid core_data n)
  = Some (filled_first serializable core_data inp :: rest).
Proof.
  rewrite (input_field_list_key_error _ _ _ n Hcore), Hn. reflexivity.
Qed.

Lemma input_field_list_fills_first_witness :
  let I := integer_init (VInt 3) None None false in
  ~ In "batched" ["default"; "val"; "doc"; "bounds"]
  /\ fst (input_field_list (fun _ => true) (fun _ => true) ["default"; "val"; "doc"; "bounds"]
            (mkNode (Some [mkNodeInput (Some I) VNone 0 0 "a" "data" None;
                           mkNodeInput (Some I) VNone 0 1 "b" "data" None]) false false))
     = Some [mkNodeInput (Some I) (VInt 3) 0 0 "a" "data" None;
             mkNodeInput (Some I) VNone 0 1 "b" "data" None].
Proof.
  assert (H : ~ In "batched" ["default"; "val"; "doc"; "bounds"])
    by (cbn; intros [H|[H|[H|[H|[]]]]]; discriminate H).
  split; [exact H|].
  rewrite (input_field_list_fills_first (fun _ => true) (fun _ => true)
             ["default"; "val"; "doc"; "bounds"]
             (mkNode (Some [mkNodeInput (Some (integer_init (VInt 3) None None false))
                              VNone 0 0 "a" "data" None;
                            mkNodeInput (Some (integer_init (VInt 3) None None false))
                              VNone 0 1 "b" "data" None]) false false)
             _ _ H eq_refl).
  reflexivity.
Defined.


(** ** Closing widgets *)

Lemma wtree_ind' (P : wtree -> Prop)
    (Hn : forall i, P (WTree i None))
    (Hs : forall i cs, Forall P cs -> P (WTree i (Some cs))) :
  forall w, P w.
Proof.
  exact (fix f (w : wtree) : P w :=
           match w with
           | WTree i None => Hn i
           | WTree i (Some cs) =>
               Hs i cs ((fix g (cs : list wtree) : Forall P cs :=
                           match cs with
                           | [] => @List.Forall_nil _ P
                           | c :: cs' => @List.Forall_cons _ P c cs' (f c) (g cs')
                           end) cs)
           end).
Qed.

Lemma close_widget_some i cs closed :
  close_widget (WTree i (Some cs)) closed = (close_children cs closed ++ [i])%list.
Proof.
  reflexivity.
Qed.

Lemma wtree_ids_some i cs : wtree_ids (WTree i (Some cs)) = i :: flat_map wtree_ids cs.
Proof.
  reflexivity.
Qed.

Lemma close_widget_spec (w : wtree) :
  (forall closed, close_widget w closed = (closed ++ close_widget w [])%list)
  /\ Permutation (close_widget w []) (wtree_ids w).
Proof.
  induction w as [i|i cs Hcs] using wtree_ind'.
  - split; [reflexivity | apply Permutation_refl].
  - assert (Hc : (forall closed, close_children cs closed = (closed ++ close_children cs [])%list)
                 /\ Permutation (close_children cs []) (flat_map wtree_ids cs)).
    { induction Hcs as [|c cs [Hc1 Hc2] _ [IH1 IH2]]; [split; [intros; cbn; rewrite app_nil_r; reflexivity | apply Permutation_refl]|].
      cbn [close_children flat_map]. split.
      - intros closed. rewrite IH1, (IH1 (close_widget c [])), Hc1, app_assoc. reflexivity.
      - rewrite IH1. apply Permutation_app; assumption. }
    destruct Hc as [Hc1 Hc2].
    rewrite (close_widget_some i cs []), wtree_ids_some. split.
    + intros closed. rewrite (close_widget_some i cs closed), (Hc1 closed), <- app_assoc.
      reflexivity.
    + eapply Permutation_trans; [apply Permutation_app; [exact Hc2 | apply Permutation_refl]|].
      apply Permutation_sym, Permutation_cons_append.
Qed.

(** [_close_widget(w)] closes every widget of the tree [w] once, and [w]
    itself last, after all its descendants. *)
Theorem close_widget_closes_all (w : wtree) (closed : list nat) :
  exists order,
    close_widget w closed = (closed ++ order)%list
    /\ Permutation order (wtree_ids w)
    /\ last order = Some (match w with WTree i _ => i end).
Proof.
  destruct (close_widget_spec w) as [H1 H2].
  exists (close_widget w []). split; [apply H1|]. split; [exact H2|].
  destruct w as [i [cs|]].
  - rewrite close_widget_some. apply last_snoc.
  - reflexivity.
Qed.

(** [clear()] drops the three widgets and closes every widget of the ones
    that were drawn, each once. *)
Theorem clear_closes_all (ws : ctrl_widgets) (closed : list nat) :
  fst (clear ws closed) = mkCtrlWidgets None None None
  /\ exists order,
       snd (clear ws closed) = (closed ++ order)%list
       /\ Permutation order (opt_ids (input_widget ws) ++ opt_ids (input_box_w ws)
                             ++ opt_ids (info_box ws))%list.
Proof.
  split; [reflexivity|].
  assert (Hstep : forall (w : option wtree) acc,
             exists o, (match w with Some w => close_widget w acc | None => acc end)
                       = (acc ++ o)%list /\ Permutation o (opt_ids w)).
  { intros [w|] acc; cbn.
    - destruct (close_widget_spec w) as [H1 H2]. exists (close_widget w []). auto.
    - exists []. rewrite app_nil_r. split; [reflexivity | apply Permutation_refl]. }
  destruct ws as [a b c]. unfold clear. cbn [fold_left input_widget input_box_w info_box snd].
  destruct (Hstep a closed) as [oa [Ea Pa]]. rewrite Ea.
  destruct (Hstep b (closed ++ oa)%list) as [ob [Eb Pb]]. rewrite Eb.
  destruct (Hstep c ((closed ++ oa) ++ ob)%list) as [oc [Ec Pc]]. rewrite Ec.
  exists (oa ++ ob ++ oc)%list. rewrite !app_assoc. split; [reflexivity|].
  rewrite <- !app_assoc. apply Permutation_app; [exact Pa|]. apply Permutation_app; assumption.
Qed.

(** ** The ontological workflow tree *)

Lemma represented_child_matches (g : graph) (t : otree) (out : nat) :
  represented g t out = true ->
  exists c, In c (otree_children t) /\ opt_otype_eqb (g_out_otype g out) (otree_value c) = true.
Proof.
  intros H. destruct t as [v cs]. cbn in H |- *.
  induction cs as [|[v' cc] cs IH]; [discriminate|].
  destruct (opt_otype_eqb (g_out_otype g out) v') eqn:E.
  - exists (OTree v' cc). split; [left; reflexivity | exact E].
  - destruct (IH H) as [c [Hin Hc]]. exists c. split; [right; exact Hin | exact Hc].
Qed.

(** [_output_graph_is_represented_in_workflow_tree] returns [True] only if
    some child of the tree has the output's ontology type as its value; so
    never for an output without an ontology type. *)
Theorem represented_needs_matching_child (g : graph) (v : otype) (cs : list otree)
    (out : nat) (H : represented g (OTree v cs) out = true) :
  exists c, In c cs /\ opt_otype_eqb (g_out_otype g out) (otree_value c) = true.
Proof. exact (represented_child_matches g (OTree v cs) out H). Qed.

Lemma represented_needs_matching_child_witness :
  let t := mkOType "onto" "Energy" in
  represented (lone_output_graph t) (OTree t [OTree t []]) 0 = true
  /\ exists c, In c [OTree t []] /\ opt_otype_eqb (Some t) (otree_value c) = true.
Proof.
  split; [reflexivity|].
  exact (represented_needs_matching_child (lone_output_graph (mkOType "onto" "Energy"))
           (mkOType "onto" "Energy") [OTree (mkOType "onto" "Energy") []] 0 eq_refl).
Defined.

(** When no input of the output's node has both an ontology type and a
    connection, the check only asks whether some child of the tree has the
    output's ontology type. *)
Theorem represented_no_upstream (g : graph) (v : otype) (cs : list otree) (out : nat)
    (H : filter (upstream_input g) (g_out_node_inputs g out) = []) :
  represented g (OTree v cs) out
  = existsb (fun c => opt_otype_eqb (g_out_otype g out) (otree_value c)) cs.
Proof.
  cbn. rewrite H. induction cs as [|[v' cc] cs IH]; [reflexivity|].
  cbn [existsb otree_value]. rewrite <- IH.
  destruct (opt_otype_eqb (g_out_otype g out) v'); reflexivity.
Qed.

Lemma represented_no_upstream_witness :
  let t := mkOType "onto" "Energy" in
  let u := mkOType "onto" "Force" in
  represented (lone_output_graph t) (OTree u [OTree u []; OTree t []]) 0 = true.
Proof.
  cbv zeta.
  rewrite (represented_no_upstream (lone_output_graph (mkOType "onto" "Energy"))
             (mkOType "onto" "Force")
             [OTree (mkOType "onto" "Force") []; OTree (mkOType "onto" "Energy") []] 0 eq_refl).
  reflexivity.
Defined.

(** An input with an ontology type passes [otype_ok] only if the ontology
    type of each ontologically typed output connected to it is the value of
    a child of the input's source tree. *)
Theorem input_otype_ok_needs_children (source_tree : nat -> otree) (g : graph)
    (i o : nat) (t : otype)
    (Hi : g_inp_otype g i <> None)
    (H : input_otype_ok source_tree g i = true)
    (Ho : In o (g_inp_connections g i)) (Ht : g_out_otype g o = Some t) :
  exists c, In c (otree_children (source_tree i)) /\ otype_eqb t (otree_value c) = true.
Proof.
  unfold input_otype_ok in H. destruct (g_inp_otype g i) as [ti|]; [|congruence].
  rewrite forallb_forall in H. specialize (H o Ho). rewrite Ht in H.
  destruct (represented_child_matches g (source_tree i) o H) as [c [Hc Heq]].
  rewrite Ht in Heq. exists c. split; assumption.
Qed.

Lemma input_otype_ok_needs_children_witness :
  let t := mkOType "onto" "Energy" in
  let g := mkGraph (fun _ => Some t) (fun _ => []) (fun _ => Some t) (fun _ => [0]) in
  input_otype_ok (fun _ => OTree t [OTree t []]) g 0 = true
  /\ exists c, In c [OTree t []] /\ otype_eqb t (otree_value c) = true.
Proof.
  split; [reflexivity|].
  exact (input_otype_ok_needs_children (fun _ => OTree (mkOType "onto" "Energy")
                                                   [OTree (mkOType "onto" "Energy") []])
           (mkGraph (fun _ => Some (mkOType "onto" "Energy")) (fun _ => [])
              (fun _ => Some (mkOType "onto" "Energy")) (fun _ => [0]))
           0 0 (mkOType "onto" "Energy") ltac:(discriminate) eq_refl
           (or_introl eq_refl) eq_refl).
Defined.

(** ** Choice, List and Char *)

(** A [Choice] accepts a value other than [None] exactly when it is [==]
    to one of its [items] (so [True] when [1] is an item), whatever its
    valid classes; without [items] it accepts no such value. *)
Theorem choice_matches_items {py_eq_inst : PyEq} (dflt : pyval) (its : option (list pyval))
    ls vc (an : bool) (v : pyval) (Hv : v <> VNone) :
  matches (choice_init dflt its ls vc an) (AVal v)
  = py_in v (match its with Some l => l | None => [] end).
Proof. destruct ls as [[? ?]|]; destruct v; try congruence; reflexivity. Qed.

Lemma choice_matches_items_witness :
  @matches basic_eq (choice_init VNone (Some [VInt 1]) None None false) (AVal (VBool true)) = Ok true
  /\ @matches basic_eq (choice_init VNone None None None false) (AVal (VInt 1)) = Ok false.
Proof.
  split.
  - rewrite (@choice_matches_items basic_eq VNone (Some [VInt 1]) None None false (VBool true)
               ltac:(discriminate)). reflexivity.
  - rewrite (@choice_matches_items basic_eq VNone None None None false (VInt 1) ltac:(discriminate)).
    reflexivity.
Defined.

(** [List()] defaults to an empty list and accepts exactly the values
    (other than [None]) whose type is a subclass of [list]: a numpy array
    is rejected. *)
Theorem list_dtype_defaults {py_eq_inst : PyEq} (an : bool) (v : pyval) (Hv : v <> VNone) :
  default (list_init None None None an) = VList []
  /\ matches (list_init None None None an) (AVal v) = Ok (cls_sub (type_of v) CList).
Proof.
  split; [reflexivity|]. destruct v; [congruence | cbn; rewrite ?orb_false_r; reflexivity..].
Qed.

Lemma list_dtype_defaults_witness :
  @matches basic_eq (list_init None None None false) (AVal (VArr [VInt 1])) = Ok false.
Proof.
  destruct (@list_dtype_defaults basic_eq false (VArr [VInt 1]) ltac:(discriminate)) as [_ H].
  rewrite H. reflexivity.
Defined.

(** With its default valid classes ([chr], a function, not a class),
    [Char().matches] raises [TypeError] for every value other than [None],
    and for every [Char] dtype built with the default valid classes. *)
Theorem char_default_matches_raises {py_eq_inst : PyEq} (dflt dflt' : pyval) (an an' : bool) (v : pyval)
    (Hv : v <> VNone) :
  matches (char_init dflt None None an) (AVal v) = Raise TypeError
  /\ matches (char_init dflt None None an) (ADType (char_init dflt' None None an'))
     = Raise TypeError.
Proof. split; [destruct v; [congruence | reflexivity..] | reflexivity]. Qed.

Lemma char_default_matches_raises_witness :
  @matches basic_eq (char_init (VStr "") None None false) (AVal (VStr "a")) = Raise TypeError.
Proof.
  destruct (@char_default_matches_raises basic_eq (VStr "") (VStr "") false false (VStr "a")
              ltac:(discriminate)) as [H _].
  exact H.
Defined.
